(** * The appointment pipeline of [vm/test.py]

    A shallow embedding of the record transformation pipeline
    (filters and enrichment stages over a pandas DataFrame) together
    with the constants of [vm/constants.py], and the properties the
    specification states about them.

    Conventions of the embedding:
    - a DataFrame is the ordered list of its rows, each row carrying its
      index label; a Series is a list of labelled values;
    - text is ASCII: [\w] is [A-Za-z0-9_] and [\d] is [0-9];
    - the column Note holds text or NaN (dtype object);
    - a Timestamp is its number of nanoseconds since the epoch;
    - NaN / NaT / None cells are [None];
    - the logger is a list of entries, an exception is a [Raise] result;
    - in [vm/logging.py], in [main] and in [aws/__main__.py] the calls
      to collaborators (file system, web driver, mail) are the events
      of a trace, and their results are parameters of a Section. *)

From Stdlib Require Import ZArith List Bool Ascii String Lia Arith FinFun.
Import ListNotations.

(* ================================================================== *)
(** ** Python's [re] on the patterns of [constants.py] *)
(* ================================================================== *)

Module Re.

Definition code (c : ascii) : nat := nat_of_ascii c.

Definition is_digit (c : ascii) : bool :=
  (48 <=? code c) && (code c <=? 57).

Definition is_upper (c : ascii) : bool :=
  (65 <=? code c) && (code c <=? 90).

Definition is_lower (c : ascii) : bool :=
  (97 <=? code c) && (code c <=? 122).

(** [\w] on ASCII text. *)
Definition is_word (c : ascii) : bool :=
  is_digit c || is_upper c || is_lower c || (code c =? 95).

Definition lower (c : ascii) : ascii :=
  if is_upper c then ascii_of_nat (code c + 32) else c.

(** A member of a character set. *)
Inductive item : Type :=
| Lit (c : ascii)      (* the character itself *)
| Digit                (* \d *)
| Word.                (* \w *)

(** The fragment of the pattern language the two constants use. *)
Inductive regex : Type :=
| Boundary                           (* \b *)
| Chars (items : list item)          (* [...], \d, \w *)
| Cat (r1 r2 : regex)                (* r1 r2 *)
| Rep (r : regex) (lo hi : nat).     (* greedy (?:r){lo,hi} *)

Definition item_matches (ignorecase : bool) (i : item) (c : ascii) : bool :=
  match i with
  | Lit l => if ignorecase then Ascii.eqb (lower c) (lower l) else Ascii.eqb c l
  | Digit => is_digit c
  | Word => is_word c
  end.

Definition chars_match (ignorecase : bool) (items : list item) (c : ascii) : bool :=
  existsb (fun i => item_matches ignorecase i c) items.

Definition word_before (prev : option ascii) : bool :=
  match prev with Some c => is_word c | None => false end.

Definition word_after (s : list ascii) : bool :=
  match s with c :: _ => is_word c | [] => false end.

(** [\b]: exactly one side of the position is a word character. *)
Definition at_boundary (prev : option ascii) (s : list ascii) : bool :=
  xorb (word_before prev) (word_after s).

Section Matcher.
Context {A : Type}.

(** A position is the character before it and the text after it; a
    continuation receives the position a sub-pattern stopped at. *)
Definition cont : Type := option ascii -> list ascii -> option A.
Definition matcher : Type := option ascii -> list ascii -> cont -> option A.

(** Greedy bounded repetition with backtracking: one more round
    first, stopping here only when that fails. *)
Fixpoint rep_loop (m : matcher) (lo hi : nat)
         (prev : option ascii) (s : list ascii) (k : cont) : option A :=
  match hi with
  | O => if lo =? 0 then k prev s else None
  | S hi' =>
      match m prev s (fun p' s' => rep_loop m (pred lo) hi' p' s' k) with
      | Some x => Some x
      | None => if lo =? 0 then k prev s else None
      end
  end.

Fixpoint rmatch (ignorecase : bool) (r : regex) : matcher :=
  fun prev s k =>
    match r with
    | Boundary => if at_boundary prev s then k prev s else None
    | Chars items =>
        match s with
        | c :: s' => if chars_match ignorecase items c then k (Some c) s' else None
        | [] => None
        end
    | Cat r1 r2 =>
        rmatch ignorecase r1 prev s (fun p' s' => rmatch ignorecase r2 p' s' k)
    | Rep r' lo hi => rep_loop (rmatch ignorecase r') lo hi prev s k
    end.
End Matcher.

(** [pattern.match] at a position: the text left after the match. *)
Definition match_at (ignorecase : bool) (r : regex)
           (prev : option ascii) (s : list ascii) : option (list ascii) :=
  rmatch ignorecase r prev s (fun _ rest => Some rest).

(** The scan of [re.findall]: try each position from the left; a match
    is collected and the scan resumes where it ended ([skip] counts the
    characters of the last match still to pass). *)
Fixpoint scan (ignorecase : bool) (r : regex)
         (prev : option ascii) (s : list ascii) (skip : nat) : list (list ascii) :=
  match skip with
  | S n =>
      match s with
      | [] => []
      | c :: s' => scan ignorecase r (Some c) s' n
      end
  | O =>
      match match_at ignorecase r prev s with
      | Some rest =>
          let n := (List.length s - List.length rest)%nat in
          firstn n s ::
            match s with
            | [] => []
            | c :: s' => scan ignorecase r (Some c) s' (n - 1)
            end
      | None =>
          match s with
          | [] => []
          | c :: s' => scan ignorecase r (Some c) s' 0
          end
      end
  end.

Definition findall (r : regex) (ignorecase : bool) (s : string) : list string :=
  map string_of_list_ascii (scan ignorecase r None (list_ascii_of_string s) 0).

(** What a pattern denotes: [Matches ic r p s p' s'] when [r] can
    consume the text between the positions [(p, s)] and [(p', s')]. *)
Inductive Matches (ic : bool)
  : regex -> option ascii -> list ascii -> option ascii -> list ascii -> Prop :=
| M_boundary p s :
    at_boundary p s = true -> Matches ic Boundary p s p s
| M_chars items p c s :
    chars_match ic items c = true -> Matches ic (Chars items) p (c :: s) (Some c) s
| M_cat r1 r2 p s p1 s1 p2 s2 :
    Matches ic r1 p s p1 s1 -> Matches ic r2 p1 s1 p2 s2 ->
    Matches ic (Cat r1 r2) p s p2 s2
| M_rep_stop r hi p s :
    Matches ic (Rep r 0 hi) p s p s
| M_rep_more r lo hi p s p1 s1 p2 s2 :
    Matches ic r p s p1 s1 -> Matches ic (Rep r (pred lo) hi) p1 s1 p2 s2 ->
    Matches ic (Rep r lo (S hi)) p s p2 s2.

(** The character before the position reached after [pre]. *)
Definition last_char (p : option ascii) (pre : list ascii) : option ascii :=
  match rev pre with
  | c :: _ => Some c
  | [] => p
  end.

End Re.

(* ================================================================== *)
(** ** [vm/constants.py] *)
(* ================================================================== *)

Open Scope string_scope.

Definition DICT_PRESTAZIONNE : list (Z * string) :=
  [ (1%Z, "ALTRE PRESTAZIONI O NESSUNA DELL'ELENCO");
    (2%Z, "Visite specialistiche");
    (3%Z, "Prestazioni di fisioterapia (MAX 500E/ANNO)");
    (4%Z, "Chirurgia dermatologica");
    (5%Z, "Visite specialistiche in gravidanza (assistito)");
    (6%Z, "Ecografie in gravidanza");
    (7%Z, "Visite specialistiche pediatriche (tutela del figlio)");
    (8%Z, "Prevenzione");
    (9%Z, "Fisioterapia oltre 500E SOLO PER CONDIZIONI SPECIALI");
    (10%Z, "Visite specialistiche (tutela del figlio, non pediatriche)") ].

Definition QUAS : string := "QUAS".
Definition QUAS_PENSIONATI : string := "QUAS-PENSIONATI".

Definition re_sep : Re.regex :=
  Re.Chars [Re.Lit "."%char; Re.Lit "/"%char; Re.Lit "-"%char].
Definition re_d : Re.regex := Re.Chars [Re.Digit].
Definition re_w : Re.regex := Re.Chars [Re.Word].
Definition re_XB : Re.regex := Re.Chars [Re.Lit "X"%char; Re.Lit "B"%char].

(** [r"\b\d{1,2}[./-]\d{1,2}(?:[./-]\d{2,4})?\b"] *)
Definition SCADENZA_REGEX : Re.regex :=
  Re.Cat Re.Boundary
    (Re.Cat (Re.Rep re_d 1 2)
       (Re.Cat re_sep
          (Re.Cat (Re.Rep re_d 1 2)
             (Re.Cat (Re.Rep (Re.Cat re_sep (Re.Rep re_d 2 4)) 0 1)
                Re.Boundary)))).

(** [r"\b[XB][XB]\w{6}\b"] *)
Definition PNR_REGEX : Re.regex :=
  Re.Cat Re.Boundary
    (Re.Cat re_XB
       (Re.Cat re_XB
          (Re.Cat (Re.Rep re_w 6 6) Re.Boundary))).

(* ================================================================== *)
(** ** Calendar arithmetic behind [pd.Timestamp] and [datetime] *)
(* ================================================================== *)

Open Scope Z_scope.
Open Scope list_scope.

Module Calendar.

Definition is_leap (y : Z) : bool :=
  ((y mod 4 =? 0) && negb (y mod 100 =? 0)) || (y mod 400 =? 0).

(** [calendar.monthrange(y, m)[1]] *)
Definition days_in_month (y m : Z) : Z :=
  if m =? 2 then (if is_leap y then 29 else 28)
  else if (m =? 4) || (m =? 6) || (m =? 9) || (m =? 11) then 30
  else 31.

(** Days from 1970-01-01 to the given day of the proleptic Gregorian
    calendar. *)
Definition days_from_civil (y m d : Z) : Z :=
  let y' := if m <=? 2 then y - 1 else y in
  let era := y' / 400 in
  let yoe := y' - era * 400 in
  let mp := if 2 <? m then m - 3 else m + 9 in
  let doy := (153 * mp + 2) / 5 + d - 1 in
  let doe := yoe * 365 + yoe / 4 - yoe / 100 + doy in
  era * 146097 + doe - 719468.

Definition NS_PER_SECOND : Z := 1000000000.
Definition NS_PER_DAY : Z := 86400 * NS_PER_SECOND.

(** [pd.Timestamp(year, month, day, hour, minute, second).value] *)
Definition Timestamp (y m d hh mm ss : Z) : Z :=
  days_from_civil y m d * NS_PER_DAY + ((hh * 60 + mm) * 60 + ss) * NS_PER_SECOND.

(** The unit [Y] of a numpy timedelta: the mean year of the 400-year
    cycle, 146097 / 400 days. *)
Definition NS_PER_YEAR : Z := 146097 * NS_PER_DAY / 400.

End Calendar.

(* ================================================================== *)
(** ** [dateutil.parser.parse(token, dayfirst=True)]

    The library function [extract_scadenza_from_df] applies to the first
    match of [SCADENZA_REGEX]; it is modelled on the strings that
    pattern can match: two or three runs of digits joined by [.], [/]
    or [-].  [None] is the raised [ParserError]. *)
(* ================================================================== *)

Module Dateutil.

Record date : Type := mkdate { year : Z; month : Z; day : Z }.

(** The default of [parse] (today at midnight); the parser's
    two-digit-year window is centred on the same year. *)
Definition default := date.

Definition char_is (a : ascii) (c : ascii) : bool := Ascii.eqb a c.

Definition is_sep (c : ascii) : bool :=
  char_is "." c || char_is "/" c || char_is "-" c.

Fixpoint span_digits (s : list ascii) : list ascii * list ascii :=
  match s with
  | c :: s' =>
      if Re.is_digit c
      then let (ds, rest) := span_digits s' in (c :: ds, rest)
      else ([], s)
  | [] => ([], [])
  end.

(** [int(digits)] *)
Definition int_of_digits (ds : list ascii) : Z :=
  fold_left (fun acc c => 10 * acc + (Z.of_nat (Re.code c) - 48)) ds 0.

(** The token as the lexer and the regex see it. *)
Inductive fields : Type :=
| Two (a : list ascii) (s1 : ascii) (b : list ascii)
| Three (a : list ascii) (s1 : ascii) (b : list ascii) (s2 : ascii) (c : list ascii).

Definition split_fields (tok : list ascii) : option fields :=
  match span_digits tok with
  | ((_ :: _) as a, s1 :: r1) =>
      if is_sep s1 then
        match span_digits r1 with
        | ((_ :: _) as b, []) => Some (Two a s1 b)
        | ((_ :: _) as b, s2 :: r2) =>
            if is_sep s2 then
              match span_digits r2 with
              | ((_ :: _) as c, []) => Some (Three a s1 b s2 c)
              | _ => None
              end
            else None
        | _ => None
        end
      else None
  | _ => None
  end.

(** The parser's [_ymd] list: the values read so far, the position
    labelled as the year, and whether some value carried a century. *)
Record ymd : Type := mkymd {
  values : list Z;
  ystridx : option nat;
  century_specified : bool }.

(** What [_timelex] and [_parse_numeric_token] leave in [_ymd]:
    - [a.b] is one decimal token, of which [int(a.b) = a] is kept;
    - [a/b], [a-b]: two members;
    - three runs with twice the same separator: three members, the
      third one appended as text and labelled as the year when it has
      more than two digits;
    - three runs with [/] and [-] mixed: the third is appended as a
      number and labelled as the year when it exceeds 100;
    - a dot next to another separator leaves a token that is not an
      integer ([a.b] or [b.c]): [ValueError]. *)
Definition ymd_of_fields (f : fields) : option ymd :=
  match f with
  | Two a s1 b =>
      if char_is "." s1
      then Some (mkymd [int_of_digits a] None false)
      else Some (mkymd [int_of_digits a; int_of_digits b] None false)
  | Three a s1 b s2 c =>
      let vals := [int_of_digits a; int_of_digits b; int_of_digits c] in
      if Ascii.eqb s1 s2 then
        if (2 <? List.length c)%nat
        then Some (mkymd vals (Some 2%nat) true)
        else Some (mkymd vals None false)
      else if char_is "." s1 || char_is "." s2 then None
      else if 100 <? int_of_digits c
           then Some (mkymd vals (Some 2%nat) true)
           else Some (mkymd vals None false)
  end.

(** The parser's result: the members that were recognised. *)
Record ymd_result : Type := mkres {
  r_year : option Z; r_month : option Z; r_day : option Z }.

(** [_ymd.resolve_ymd(yearfirst=False, dayfirst=True)] without month
    names. *)
Definition resolve_ymd (y : ymd) : option ymd_result :=
  match values y with
  | [a] =>
      if 31 <? a then Some (mkres (Some a) None None)
      else Some (mkres None None (Some a))
  | [a; b] =>
      if 31 <? a then Some (mkres (Some a) (Some b) None)
      else if 31 <? b then Some (mkres (Some b) (Some a) None)
      else if b <=? 12 then Some (mkres None (Some b) (Some a))
      else Some (mkres None (Some a) (Some b))
  | [a; b; c] =>
      if (31 <? a) || (match ystridx y with Some O => true | _ => false end) then
        if c <=? 12 then Some (mkres (Some a) (Some c) (Some b))
        else Some (mkres (Some a) (Some b) (Some c))
      else if (12 <? a) || (b <=? 12) then Some (mkres (Some c) (Some b) (Some a))
      else Some (mkres (Some c) (Some a) (Some b))
  | _ => None
  end.

(** [parserinfo.convertyear] *)
Definition convertyear (this_year : Z) (y : Z) (century : bool) : Z :=
  if (y <? 100) && negb century then
    let y1 := y + this_year / 100 * 100 in
    if this_year + 50 <=? y1 then y1 - 100
    else if y1 <? this_year - 50 then y1 + 100
    else y1
  else y.

(** [_build_naive]: the members found replace those of the default;
    [datetime.replace] raises on a date that does not exist. *)
Definition build_naive (dflt : default) (r : ymd_result) : option date :=
  let y := match r_year r with Some v => v | None => year dflt end in
  let m := match r_month r with Some v => v | None => month dflt end in
  if (1 <=? m) && (m <=? 12) then
    let d := match r_day r with
             | Some v => v
             | None => Z.min (day dflt) (Calendar.days_in_month y m)
             end in
    if (1 <=? y) && (y <=? 9999) && (1 <=? d) && (d <=? Calendar.days_in_month y m)
    then Some (mkdate y m d)
    else None
  else None.

Definition parse (dflt : default) (tok : string) : option date :=
  match split_fields (list_ascii_of_string tok) with
  | None => None
  | Some f =>
      match ymd_of_fields f with
      | None => None
      | Some y =>
          match resolve_ymd y with
          | None => None
          | Some r =>
              let r' := mkres
                          (option_map
                             (fun v => convertyear (year dflt) v (century_specified y))
                             (r_year r))
                          (r_month r) (r_day r) in
              build_naive dflt r'
          end
      end
  end.

End Dateutil.

(* ================================================================== *)
(** ** The logger, exceptions, and the monad that threads them *)
(* ================================================================== *)

Inductive level : Type := DEBUG | WARNING | ERROR.

(** The messages of [vm/test.py], with the number each one formats. *)
Inductive message : Type :=
| Excel_read (n : Z)             (* "Excel read {n} detected" *)
| Minors_dropped (n : Z)         (* "{n} patients were minor and therefore dropped ..." *)
| No_minor                       (* "No minor patient detected" *)
| Wrong_insurance (n : Z)        (* "{n} patients were dropped because they don't have the correct insurance ..." *)
| Lost_esame (n : Z)             (* "{n} patients were dropped because of their ESAME. ... DATA WAS LOST !" *)
| Lost_scadenza (n : Z)          (* "{n} patients were dropped because of their Scadenza. ... DATA WAS LOST !" *)
| Need_second_pnr (n : Z).       (* "{n} patients need a second pnr" *)

Definition entry : Type := (level * message)%type.

Inductive exn : Type :=
| ParserError      (* dateutil.parser.ParserError *)
| ValueError.      (* pandas: missing sheet or header row, length mismatch *)

Inductive result (A : Type) : Type :=
| Ok (a : A)
| Raise (e : exn).

Arguments Ok {A} a.
Arguments Raise {A} e.

(** A computation returns or raises, and leaves its log entries. *)
Definition M (A : Type) : Type := (result A * list entry)%type.

Definition ret {A} (a : A) : M A := (Ok a, []).
Definition raise {A} (e : exn) : M A := (Raise e, []).
Definition log_ (l : level) (m : message) : M unit := (Ok tt, [(l, m)]).

Definition bind {A B} (c : M A) (f : A -> M B) : M B :=
  match c with
  | (Ok a, l1) => let (r, l2) := f a in (r, l1 ++ l2)
  | (Raise e, l1) => (Raise e, l1)
  end.

Notation "x <- c ;; k" := (bind c (fun x => k))
  (at level 61, c at next level, right associativity).
Notation "c ;;; k" := (bind c (fun _ => k))
  (at level 61, right associativity).

Definition when_ (b : bool) (c : M unit) : M unit := if b then c else ret tt.

(* ================================================================== *)
(** ** DataFrames *)
(* ================================================================== *)

(** One row of [df_patients]: its index label, the columns of the sheet
    the stages read, and the columns the stages add ([None] until then,
    and for NaN / NaT afterwards). *)
Record Row : Type := mkRow {
  label : Z;
  Data_Di_Nascita : option Z;
  Descrizione_BusinessPartner : string;
  Istituto : Z;
  Esame : string;
  Note : option string;
  age : option Z;
  PNR : option (list string);
  second_pnr : option bool;
  Codice_Esame_SAP : option string;
  ID_prestazioni : option Z;
  type_prestazioni : option string;
  scad : option Dateutil.date }.

Definition DataFrame : Type := list Row.

(** A labelled column. *)
Definition Series (A : Type) : Type := list (Z * A).

Definition with_label (l : Z) (r : Row) : Row :=
  mkRow l (Data_Di_Nascita r) (Descrizione_BusinessPartner r) (Istituto r)
        (Esame r) (Note r) (age r) (PNR r) (second_pnr r)
        (Codice_Esame_SAP r) (ID_prestazioni r) (type_prestazioni r) (scad r).

Definition with_age (v : option Z) (r : Row) : Row :=
  mkRow (label r) (Data_Di_Nascita r) (Descrizione_BusinessPartner r) (Istituto r)
        (Esame r) (Note r) v (PNR r) (second_pnr r)
        (Codice_Esame_SAP r) (ID_prestazioni r) (type_prestazioni r) (scad r).

Definition with_PNR (v : option (list string)) (r : Row) : Row :=
  mkRow (label r) (Data_Di_Nascita r) (Descrizione_BusinessPartner r) (Istituto r)
        (Esame r) (Note r) (age r) v (second_pnr r)
        (Codice_Esame_SAP r) (ID_prestazioni r) (type_prestazioni r) (scad r).

Definition with_second_pnr (v : option bool) (r : Row) : Row :=
  mkRow (label r) (Data_Di_Nascita r) (Descrizione_BusinessPartner r) (Istituto r)
        (Esame r) (Note r) (age r) (PNR r) v
        (Codice_Esame_SAP r) (ID_prestazioni r) (type_prestazioni r) (scad r).

Definition with_cat (code : option string) (id : option Z) (r : Row) : Row :=
  mkRow (label r) (Data_Di_Nascita r) (Descrizione_BusinessPartner r) (Istituto r)
        (Esame r) (Note r) (age r) (PNR r) (second_pnr r)
        code id (type_prestazioni r) (scad r).

Definition with_type_prestazioni (v : option string) (r : Row) : Row :=
  mkRow (label r) (Data_Di_Nascita r) (Descrizione_BusinessPartner r) (Istituto r)
        (Esame r) (Note r) (age r) (PNR r) (second_pnr r)
        (Codice_Esame_SAP r) (ID_prestazioni r) v (scad r).

Definition with_scad (v : option Dateutil.date) (r : Row) : Row :=
  mkRow (label r) (Data_Di_Nascita r) (Descrizione_BusinessPartner r) (Istituto r)
        (Esame r) (Note r) (age r) (PNR r) (second_pnr r)
        (Codice_Esame_SAP r) (ID_prestazioni r) (type_prestazioni r) v.

(** [df.index] and [df[column]] *)
Definition index (df : DataFrame) : list Z := map label df.

Definition column {A} (f : Row -> A) (df : DataFrame) : Series A :=
  map (fun r => (label r, f r)) df.

(** [Series.dropna] *)
Fixpoint dropna {A} (s : Series (option A)) : Series A :=
  match s with
  | [] => []
  | (l, Some v) :: s' => (l, v) :: dropna s'
  | (_, None) :: s' => dropna s'
  end.

Definition series_map {A B} (f : A -> B) (s : Series A) : Series B :=
  map (fun lv => (fst lv, f (snd lv))) s.

(** The value a Series holds at a label, NaN when it has none. *)
Fixpoint at_label {A} (l : Z) (s : Series A) : option A :=
  match s with
  | [] => None
  | (l', v) :: s' => if l =? l' then Some v else at_label l s'
  end.

(** [df[column] = series]: the series is aligned on the index of [df]. *)
Definition assign {A} (set : option A -> Row -> Row) (s : Series A)
           (df : DataFrame) : DataFrame :=
  map (fun r => set (at_label (label r) s) r) df.

(** [Series.isin(values)] on one value. *)
Definition isin (v : string) (values : list string) : bool :=
  existsb (String.eqb v) values.

Definition mem_label (l : Z) (labels : list Z) : bool :=
  existsb (Z.eqb l) labels.

(** [df.loc[labels, "second_pnr"] = True] *)
Definition loc_set_second_pnr (labels : list Z) (df : DataFrame) : DataFrame :=
  map (fun r => if mem_label (label r) labels
                then with_second_pnr (Some true) r else r) df.

(** [range(n)] as index labels, from [start]. *)
Fixpoint relabel (start : Z) (df : DataFrame) : DataFrame :=
  match df with
  | [] => []
  | r :: df' => with_label start r :: relabel (start + 1) df'
  end.

Definition len {A} (l : list A) : Z := Z.of_nat (List.length l).

(* ================================================================== *)
(** ** Lookup tables *)
(* ================================================================== *)

(** A row of the sheet "Codice": the two columns the join keeps and the
    text of the remaining ones. *)
Record CatRow : Type := mkCat {
  cat_code : string;            (* "Codice Esame SAP" *)
  cat_id : Z;                   (* "ID prestazioni" *)
  cat_rest : list string }.

Definition CatRow_eqb (a b : CatRow) : bool :=
  String.eqb (cat_code a) (cat_code b)
  && (cat_id a =? cat_id b)
  && (if list_eq_dec string_dec (cat_rest a) (cat_rest b) then true else false).

(** [DataFrame.drop_duplicates]: the first occurrence of each row stays. *)
Fixpoint drop_duplicates_from (seen : list CatRow) (t : list CatRow) : list CatRow :=
  match t with
  | [] => []
  | c :: t' =>
      if existsb (CatRow_eqb c) seen
      then drop_duplicates_from seen t'
      else c :: drop_duplicates_from (c :: seen) t'
  end.

Definition drop_duplicates (t : list CatRow) : list CatRow :=
  drop_duplicates_from [] t.

(** [dict.get] on [DICT_PRESTAZIONNE], as [Series.map] uses it. *)
Fixpoint dict_get (d : list (Z * string)) (k : Z) : option string :=
  match d with
  | [] => None
  | (k', v) :: d' => if k =? k' then Some v else dict_get d' k
  end.

(** The two sheets of the second-PNR workbook. *)
Record SecondPnr : Type := mkSecondPnr {
  OSR : list string;
  SRT : list string }.

(* ================================================================== *)
(** ** The stages of [vm/test.py] *)
(* ================================================================== *)

(** [(pd.Timestamp("now") - df["Data_Di_Nascita"]).astype("<m8[Y]")]:
    the elapsed nanoseconds in whole numpy years (rounded down), NaN
    for a missing birth date. *)
Definition age_in_years (now : Z) (birth : option Z) : option Z :=
  option_map (fun b => (now - b) / Calendar.NS_PER_YEAR) birth.

(** [age >= 18], false on NaN. *)
Definition ge_18 (a : option Z) : bool :=
  match a with Some v => 18 <=? v | None => false end.

Definition filter_minor_from_df (now : Z) (df_patients : DataFrame) : M DataFrame :=
  let nb_patient_before := len df_patients in
  let df_patients :=
    map (fun r => with_age (age_in_years now (Data_Di_Nascita r)) r) df_patients in
  let result := filter (fun r => ge_18 (age r)) df_patients in
  let nb_patient_after := len result in
  let nb_minor := nb_patient_before - nb_patient_after in
  (if 0 <? nb_minor
   then log_ DEBUG (Minors_dropped nb_minor)
   else log_ DEBUG No_minor) ;;;
  ret result.

Definition filter_accepted_insurances
           (df_patients : DataFrame) (accepted_insurances : list string) : M DataFrame :=
  let nb_patient_before := len df_patients in
  let result :=
    filter (fun r => isin (Descrizione_BusinessPartner r) accepted_insurances)
           df_patients in
  (* the source measures [df_patients] again, not [result] *)
  let nb_patient_after := len df_patients in
  when_ (negb (nb_patient_before =? nb_patient_after))
        (let dropped_patients := nb_patient_before - nb_patient_after in
         log_ WARNING (Wrong_insurance dropped_patients)) ;;;
  ret result.

Definition isna {A} (v : option A) : bool :=
  match v with Some _ => false | None => true end.

Definition add_pnr_to_df (df_patients : DataFrame) : M DataFrame :=
  let nb_patient_before := len df_patients in
  let pnr := dropna (column Note df_patients) in
  let df_patients :=
    assign with_PNR (series_map (Re.findall PNR_REGEX true) pnr) df_patients in
  (* idx = df["PNR"].isna(); df.loc[idx, "PNR"] = df.loc[idx, "PNR"].fillna("[]").apply(eval) *)
  let empties : Series (list string) :=
    series_map (fun _ => []) (column PNR (filter (fun r => isna (PNR r)) df_patients)) in
  let df_patients :=
    map (fun r => if isna (PNR r)
                  then with_PNR (at_label (label r) empties) r
                  else r) df_patients in
  let nb_patient_after := len df_patients in
  when_ (negb (nb_patient_before =? nb_patient_after))
        (let dropped_patients := nb_patient_before - nb_patient_after in
         log_ ERROR (Lost_esame dropped_patients)) ;;;
  ret df_patients.

Definition count_true (df : DataFrame) : Z :=
  len (filter (fun r => match second_pnr r with Some true => true | _ => false end) df).

Definition add_check_2nd_pnr (df_patients : DataFrame) (xls : SecondPnr) : M DataFrame :=
  let list_2nd_pnr_osr := OSR xls in
  let list_2nd_pnr_srt := SRT xls in
  let df_patients := map (with_second_pnr (Some false)) df_patients in
  let filtered_osr := filter (fun r => Istituto r =? 1) df_patients in
  let filtered_srt := filter (fun r => Istituto r =? 8) df_patients in
  let df_patients :=
    loc_set_second_pnr
      (index (filter (fun r => isin (Esame r) list_2nd_pnr_osr) filtered_osr))
      df_patients in
  let df_patients :=
    loc_set_second_pnr
      (index (filter (fun r => isin (Esame r) list_2nd_pnr_srt) filtered_srt))
      df_patients in
  let nb_second_pnr := count_true df_patients in
  log_ DEBUG (Need_second_pnr nb_second_pnr) ;;;
  ret df_patients.

(** [pd.merge(left, right, left_on="Esame", right_on="Codice Esame SAP",
    how="left")]: the rows of [left] in their order, each one once per
    row of [right] with its key (in the order of [right]), or once with
    NaN when there is none; the result gets a fresh index. *)
Definition merge_left (left : DataFrame) (right : list (string * Z)) : DataFrame :=
  relabel 0
    (flat_map
       (fun r =>
          match filter (fun p => String.eqb (Esame r) (fst p)) right with
          | [] => [with_cat None None r]
          | hits => map (fun p => with_cat (Some (fst p)) (Some (snd p)) r) hits
          end) left).

Definition add_cat_code (df_patients : DataFrame) (sheet_codice : list CatRow) : M DataFrame :=
  let nb_patient_before := len df_patients in
  let df_cat_code := drop_duplicates sheet_codice in
  let join_right := map (fun c => (cat_code c, cat_id c)) df_cat_code in
  let joined := merge_left df_patients join_right in
  let joined :=
    map (fun r =>
           with_type_prestazioni
             (match ID_prestazioni r with
              | Some k => dict_get DICT_PRESTAZIONNE k
              | None => None
              end) r) joined in
  let nb_patient_after := len joined in
  when_ (negb (nb_patient_before =? nb_patient_after))
        (let dropped_patients := nb_patient_before - nb_patient_after in
         log_ ERROR (Lost_esame dropped_patients)) ;;;
  ret joined.

(** [Series.apply(dateutil.parser.parse, dayfirst=True)]: the first
    token that does not parse raises. *)
Fixpoint apply_parse (today : Dateutil.default) (s : Series string)
  : result (Series Dateutil.date) :=
  match s with
  | [] => Ok []
  | (l, tok) :: s' =>
      match Dateutil.parse today tok with
      | None => Raise ParserError
      | Some d =>
          match apply_parse today s' with
          | Ok ds => Ok ((l, d) :: ds)
          | Raise e => Raise e
          end
      end
  end.

Definition extract_scadenza_from_df
           (today : Dateutil.default) (df_patients : DataFrame) : M DataFrame :=
  let nb_patient_before := len df_patients in
  (* df["scad"] = "": a placeholder the assignment below overwrites *)
  let df_patients := map (with_scad None) df_patients in
  let scad := dropna (column Note df_patients) in
  let scad := series_map (Re.findall SCADENZA_REGEX false) scad in
  (* scad.str[0].dropna(): the first match, where there is one *)
  let firsts := dropna (series_map (@hd_error string) scad) in
  match apply_parse today firsts with
  | Raise e => raise e
  | Ok parsed =>
      let df_patients := assign with_scad parsed df_patients in
      let nb_patient_after := len df_patients in
      when_ (negb (nb_patient_before =? nb_patient_after))
            (let dropped_patients := nb_patient_before - nb_patient_after in
             log_ ERROR (Lost_scadenza dropped_patients)) ;;;
      ret df_patients
  end.

(** Lines 249-255 of [create_df_from_excel], from the frame the header
    step produced: the six stages in their order; the frame returned is
    the one [to_csv] writes to [result_file], and a raised exception
    leaves no file. *)
Definition create_df_from_excel
           (now : Z) (today : Dateutil.default)
           (df_patients : DataFrame)
           (file_second_pnr : SecondPnr) (file_cat_code : list CatRow)
           (accepted_insurances : list string) : M DataFrame :=
  df_patients <- filter_minor_from_df now df_patients ;;
  df_patients <- filter_accepted_insurances df_patients accepted_insurances ;;
  df_patients <- add_pnr_to_df df_patients ;;
  df_patients <- add_check_2nd_pnr df_patients file_second_pnr ;;
  df_patients <- add_cat_code df_patients file_cat_code ;;
  df_patients <- extract_scadenza_from_df today df_patients ;;
  ret df_patients.

(* ------------------------------------------------------------------ *)
(** *** The header step of [create_df_from_excel] *)












(* ================================================================== *)
(** ** The specification's words, as definitions to compare with *)
(* ================================================================== *)

(** A civil date and time of day, as the specification speaks of birth
    dates and of "now". *)
Definition civil_timestamp (d : Dateutil.date) (hh mm ss : Z) : Z :=
  Calendar.Timestamp (Dateutil.year d) (Dateutil.month d) (Dateutil.day d) hh mm ss.

(** Whole calendar years elapsed from a birth date to a later date: the
    age of a person. *)
Definition spec_whole_years (birth now : Dateutil.date) : Z :=
  let before_birthday :=
    (Dateutil.month now <? Dateutil.month birth)
    || ((Dateutil.month now =? Dateutil.month birth)
        && (Dateutil.day now <? Dateutil.day birth)) in
  Dateutil.year now - Dateutil.year birth - (if before_birthday then 1 else 0).

Definition is_XB (c : ascii) : bool :=
  Ascii.eqb (Re.lower c) "x" || Ascii.eqb (Re.lower c) "b".

(** A PNR token starts here: two letters among X and B in either case,
    six word characters, no word character on either side. *)
Definition spec_pnr_here (prev : option ascii) (s : list ascii) : bool :=
  match s with
  | c1 :: c2 :: c3 :: c4 :: c5 :: c6 :: c7 :: c8 :: rest =>
      negb (Re.word_before prev)
      && is_XB c1 && is_XB c2
      && forallb Re.is_word [c3; c4; c5; c6; c7; c8]
      && negb (Re.word_after rest)
  | _ => false
  end.

(** Every PNR token of the text, from left to right. *)
Fixpoint spec_pnr_tokens (prev : option ascii) (s : list ascii) : list (list ascii) :=
  match s with
  | [] => []
  | c :: s' =>
      (if spec_pnr_here prev s then [firstn 8 s] else [])
        ++ spec_pnr_tokens (Some c) s'
  end.

Definition spec_pnr_codes (notes : option string) : list string :=
  match notes with
  | None => []
  | Some s => map string_of_list_ascii (spec_pnr_tokens None (list_ascii_of_string s))
  end.

(** The second-PNR rule. *)
Definition spec_requires_second_pnr (xls : SecondPnr) (r : Row) : bool :=
  ((Istituto r =? 1) && isin (Esame r) (OSR xls))
  || ((Istituto r =? 8) && isin (Esame r) (SRT xls)).







(** The first match of the expiration pattern in the notes. *)
Definition first_scadenza (notes : option string) : option string :=
  match notes with
  | None => None
  | Some s => hd_error (Re.findall SCADENZA_REGEX false s)
  end.

(** The columns of the sheet: what identifies a record across stages. *)
Definition sheet_columns (r : Row)
  : option Z * string * Z * string * option string :=
  (Data_Di_Nascita r, Descrizione_BusinessPartner r, Istituto r, Esame r, Note r).

(** [out] only removes elements of [inp]. *)
Inductive sublist {A : Type} : list A -> list A -> Prop :=
| sublist_nil : sublist [] []
| sublist_skip x out inp : sublist out inp -> sublist out (x :: inp)
| sublist_keep x out inp : sublist out inp -> sublist (x :: out) (x :: inp).

(** The elements of [out] come from [inp] in the order of [inp]: an
    element may be dropped or repeated, never moved. *)
Inductive in_order {A : Type} : list A -> list A -> Prop :=
| in_order_nil inp : in_order [] inp
| in_order_drop x out inp : in_order out inp -> in_order out (x :: inp)
| in_order_take x out inp : in_order out (x :: inp) -> in_order (x :: out) (x :: inp).

(** The rows of the deduplicated, projected category table with the
    exam code of a record. *)
Definition cat_hits (sheet_codice : list CatRow) (r : Row) : list (string * Z) :=
  filter (fun p => String.eqb (Esame r) (fst p))
         (map (fun c => (cat_code c, cat_id c)) (drop_duplicates sheet_codice)).

(** The record joined with one row of the table, or with none. *)
Definition with_category (hit : option (string * Z)) (r : Row) : Row :=
  match hit with
  | Some (code, id) =>
      with_type_prestazioni (dict_get DICT_PRESTAZIONNE id)
                            (with_cat (Some code) (Some id) r)
  | None => with_type_prestazioni None (with_cat None None r)
  end.

(** A computation returns a value satisfying [P]. *)
Definition returns {A} (c : M A) (P : A -> Prop) : Prop :=
  exists a l, c = (Ok a, l) /\ P a.


(** A row as read from the sheet, before any stage. *)
Definition patient (l : Z) (birth : option Z) (insurance : string)
           (istituto : Z) (esame : string) (notes : option string) : Row :=
  mkRow l birth insurance istituto esame notes None None None None None None None.

(** The cell [add_pnr_to_df] leaves in the column PNR. *)
Definition pnr_cell (df : DataFrame) (r : Row) : option (list string) :=
  let found := series_map (Re.findall PNR_REGEX true) (dropna (column Note df)) in
  let df1 := assign with_PNR found df in
  let empties : Series (list string) :=
    series_map (fun _ => []) (column PNR (filter (fun r => isna (PNR r)) df1)) in
  match at_label (label r) found with
  | Some v => Some v
  | None => at_label (label r) empties
  end.

(** The frame [add_cat_code] returns. *)
Definition joined_frame (df : DataFrame) (sheet_codice : list CatRow) : DataFrame :=
  map (fun r => with_type_prestazioni
                  (match ID_prestazioni r with
                   | Some k => dict_get DICT_PRESTAZIONNE k
                   | None => None
                   end) r)
      (merge_left df (map (fun c => (cat_code c, cat_id c))
                          (drop_duplicates sheet_codice))).

(** The rows category mapping makes of one record. *)
Definition joined_rows (sheet_codice : list CatRow) (r : Row) : list Row :=
  match cat_hits sheet_codice r with
  | [] => [with_category None r]
  | hits => map (fun h => with_category (Some h) r) hits
  end.

(** No PNR token starts at one of the next [n] positions. *)
Fixpoint quiet (prev : option ascii) (s : list ascii) (n : nat) {struct n} : Prop :=
  match n with
  | O => True
  | S n' =>
      match s with
      | [] => True
      | c :: s' => spec_pnr_here prev s = false /\ quiet (Some c) s' n'
      end
  end.






(** The cell [extract_scadenza_from_df] leaves in the column scad. *)
Definition expiration (today : Dateutil.default) (r : Row) : option Dateutil.date :=
  match first_scadenza (Note r) with
  | Some tok => Dateutil.parse today tok
  | None => None
  end.

(** [dateutil] accepts the first token of the record, if it has one. *)
Definition parses (today : Dateutil.default) (r : Row) : bool :=
  match first_scadenza (Note r) with
  | Some tok => negb (isna (Dateutil.parse today tok))
  | None => true
  end.


Ltac split_ifs :=
  repeat match goal with
         | |- context [if ?b then _ else _] => destruct b
         end.

(* ================================================================== *)
(** ** The rest of the code: exceptions and calls to collaborators *)
(* ================================================================== *)

Module Py.

(** The exceptions the code below can raise. *)
Inductive exc : Type :=
| ValueError
| KeyError (key : string)
| NameError (name : string)
| UnboundLocalError (name : string)
| TypeError.

Inductive outcome (A : Type) : Type :=
| Return (a : A)
| Raised (e : exc).

Arguments Return {A} a.
Arguments Raised {A} e.

Definition obind {A B} (c : outcome A) (f : A -> outcome B) : outcome B :=
  match c with
  | Return a => f a
  | Raised e => Raised e
  end.

(** A computation that calls collaborators: it extends the trace of the
    calls made so far, and returns or raises. *)
Definition Run (Ev A : Type) : Type := list Ev -> outcome A * list Ev.

Definition ret {Ev A} (a : A) : Run Ev A := fun t => (Return a, t).
Definition raise {Ev A} (e : exc) : Run Ev A := fun t => (Raised e, t).
Definition emit {Ev} (e : Ev) : Run Ev unit := fun t => (Return tt, t ++ [e]).
Definition lift {Ev A} (c : outcome A) : Run Ev A := fun t => (c, t).

Definition bind {Ev A B} (c : Run Ev A) (f : A -> Run Ev B) : Run Ev B :=
  fun t =>
    match c t with
    | (Return a, t') => f a t'
    | (Raised e, t') => (Raised e, t')
    end.

(** [dict[key]] on a dict given by its items. *)
Fixpoint getitem {V} (d : list (string * V)) (key : string) : outcome V :=
  match d with
  | [] => Raised (KeyError key)
  | (k, v) :: d' => if String.eqb key k then Return v else getitem d' key
  end.

(** [dict[key] = v]: the value of a key already there is replaced in
    place, a new key goes to the end. *)
Fixpoint setitem {V} (d : list (string * V)) (key : string) (v : V)
  : list (string * V) :=
  match d with
  | [] => [(key, v)]
  | (k, w) :: d' =>
      if String.eqb key k then (k, v) :: d' else (k, w) :: setitem d' key v
  end.

(** [str.lower] on ASCII text. *)
Definition lower (s : string) : string :=
  string_of_list_ascii (map Re.lower (list_ascii_of_string s)).

(** A configuration file as [configparser] holds it: sections of
    options. *)
Definition ini : Type := list (string * list (string * string)).

(** [config[section][option]] *)
Definition cfg_get (config : ini) (section option : string) : outcome string :=
  obind (getitem config section) (fun options => getitem options option).

End Py.

Notation "x <~ c ;; k" := (Py.bind c (fun x => k))
  (at level 61, c at next level, right associativity).
Notation "c ;;~ k" := (Py.bind c (fun _ => k))
  (at level 61, right associativity).
Notation "x <?- c ;; k" := (Py.obind c (fun x => k))
  (at level 61, c at next level, right associativity).

(* ------------------------------------------------------------------ *)
(** *** [vm/logging.py] *)

Module VmLogging.

Definition LOGGING : list (string * Z) :=
  [ ("debug", 10); ("info", 20); ("warnings", 30); ("error", 40); ("critial", 50) ].

(** The names the module binds: its two imports ([os], [logging]) and
    its two definitions. *)
Definition module_globals : list string :=
  [ "os"; "logging"; "LOGGING"; "get_logger" ].

(** Reading a global name of the module. *)
Definition global (name : string) : Py.outcome unit :=
  if existsb (String.eqb name) module_globals
  then Py.Return tt
  else Py.Raised (Py.NameError name).

(** The call the function makes to the standard library. *)
Inductive event : Type :=
| BasicConfig (level : string).

(** What the function returns: the module [logging] itself. *)
Inductive logger : Type :=
| Logging_module.

Section Get_logger.

(** [os.path.exists], the sections [ConfigParser.read] finds in a file,
    and whether [logging.basicConfig(level=...)] accepts a level. *)
Variable path_exists : string -> bool.
Variable read_config : string -> Py.ini.
Variable basicConfig : string -> Py.outcome unit.

Definition get_logger (config_file_path : string) : Py.Run event logger :=
  if path_exists config_file_path then
    (* config = configparser.ConfigParser() *)
    _ <~ Py.lift (global "configparser") ;;
    let config := read_config config_file_path in
    level <~ Py.lift (s <?- Py.cfg_get config "logging" "level" ;;
                      Py.Return (Py.lower s)) ;;
    if existsb (String.eqb level) (map fst LOGGING) then
      Py.emit (BasicConfig level) ;;~
      Py.lift (basicConfig level) ;;~
      Py.ret Logging_module
    else Py.raise Py.ValueError
  else Py.raise Py.ValueError.

End Get_logger.

End VmLogging.

(* ------------------------------------------------------------------ *)
(** *** [main] of [vm/test.py] *)

Module VmMain.

Section Module_level.

Variable path_exists : string -> bool.
Variable read_config : string -> Py.ini.
Variable basicConfig : string -> Py.outcome unit.

(** Line 21, run when the module is imported. *)
Definition logger : Py.Run VmLogging.event VmLogging.logger :=
  VmLogging.get_logger path_exists read_config basicConfig "../config.ini".

End Module_level.

Inductive event : Type :=
| Makedirs (path : string)
| Create_df_from_excel
    (path_file_excel_next_appointments path_file_second_pnr path_cat_code : string)
    (accepted_insurances : list string) (result_file : string).

Section Main.

(** [os.path.join], [os.path.expanduser] and [str.format(date=...)]. *)
Variable path_join : string -> string -> string.
Variable expanduser : string -> string.
Variable format_date : string -> string -> string.

(** A call of [os.path.expanduser], which takes one argument. *)
Definition call_expanduser (args : list string) : Py.outcome string :=
  match args with
  | [path] => Py.Return (expanduser path)
  | _ => Py.Raised Py.TypeError
  end.

(** [main], given the sections of config.ini and today's date as text. *)
Definition main (config : Py.ini) (date : string) : Py.Run event unit :=
  dir <~ Py.lift (Py.cfg_get config "path" "path_dir_data") ;;
  let path_dir_data := path_join dir date in
  Py.emit (Makedirs path_dir_data) ;;~
  path_file_excel_next_appointments <~
    Py.lift (a <?- Py.cfg_get config "path" "path_file_input" ;;
             b <?- Py.cfg_get config "path" "filename_input" ;;
             call_expanduser [a; path_join path_dir_data b]) ;;
  path_file_second_pnr <~
    Py.lift (a <?- Py.cfg_get config "path" "path_file_second_pnr" ;;
             call_expanduser [a]) ;;
  path_cat_code <~
    Py.lift (a <?- Py.cfg_get config "path" "path_cat_code" ;;
             call_expanduser [a]) ;;
  result_file <~
    Py.lift (a <?- Py.cfg_get config "path" "path_file_output" ;;
             b <?- Py.cfg_get config "path" "filename_output" ;;
             call_expanduser [format_date a date; path_join path_dir_data b]) ;;
  Py.emit (Create_df_from_excel path_file_excel_next_appointments
             path_file_second_pnr path_cat_code [QUAS; QUAS_PENSIONATI] result_file).

End Main.

End VmMain.

(* ------------------------------------------------------------------ *)
(** *** [aws/__main__.py] *)

Module Aws.

(** A column of the mapping in config.yaml. *)
Record item : Type := mkItem {
  var_name : string;
  colname : string;
  coltype : string;
  date_format : option string }.

Section Parse.

(** The values of [ast.literal_eval] and of [datetime.strptime], and the
    two functions, which raise on text they do not accept. *)
Variable literal : Type.
Variable datetime : Type.
Variable literal_eval : string -> Py.outcome literal.
Variable strptime : string -> string -> Py.outcome datetime.

Inductive value : Type :=
| VString (s : string)
| VArray (l : literal)
| VBool (b : bool)
| VDate (d : datetime).

(** The inner loop: the items of the mapping, on one row of the
    [csv.DictReader] (a dict from the header's names to the cells of the
    line, all of them text). *)
Fixpoint parse_row (row : list (string * string)) (items : list item)
         (item_dict : list (string * value)) : Py.outcome (list (string * value)) :=
  match items with
  | [] => Py.Return item_dict
  | it :: items' =>
      if String.eqb (coltype it) "string" then
        cell <?- Py.getitem row (colname it) ;;
        parse_row row items' (Py.setitem item_dict (var_name it) (VString cell))
      else if String.eqb (coltype it) "array" then
        cell <?- Py.getitem row (colname it) ;;
        l <?- literal_eval cell ;;
        parse_row row items' (Py.setitem item_dict (var_name it) (VArray l))
      else if String.eqb (coltype it) "bool" then
        cell <?- Py.getitem row (colname it) ;;
        parse_row row items'
          (Py.setitem item_dict (var_name it)
             (VBool (existsb (String.eqb (Py.lower cell)) ["true"])))
      else if String.eqb (coltype it) "date" then
        cell <?- Py.getitem row (colname it) ;;
        fmt <?- match date_format it with
                | Some f => Py.Return f
                | None => Py.Raised (Py.KeyError "date_format")
                end ;;
        d <?- strptime cell fmt ;;
        parse_row row items' (Py.setitem item_dict (var_name it) (VDate d))
      else Py.Raised Py.ValueError
  end.

(** The outer loop, over the rows of the file. *)
Fixpoint parse_rows (rows : list (list (string * string))) (items : list item)
         (element_array : list (list (string * value)))
  : Py.outcome (list (list (string * value))) :=
  match rows with
  | [] => Py.Return element_array
  | row :: rows' =>
      item_dict <?- parse_row row items [] ;;
      parse_rows rows' items (element_array ++ [item_dict])
  end.

(** [_parse_input_from_hospital], on the rows [csv.DictReader] yields
    and the list [config_csv_mapping["mapping"]["csv"]]. *)
Definition _parse_input_from_hospital
           (rows : list (list (string * string))) (mapping_csv : list item)
  : Py.outcome (list (list (string * value))) :=
  parse_rows rows mapping_csv [].

End Parse.

Arguments VString {literal datetime} s.
Arguments VArray {literal datetime} l.
Arguments VBool {literal datetime} b.
Arguments VDate {literal datetime} d.
Arguments parse_row {literal datetime} literal_eval strptime row items item_dict.
Arguments parse_rows {literal datetime} literal_eval strptime rows items element_array.
Arguments _parse_input_from_hospital {literal datetime} literal_eval strptime
  rows mapping_csv.

Section Portal.

(** A patient of the batch; the code only passes it on. *)
Variable patient : Type.

(** The calls to the collaborators, in the order they are made. *)
Inductive event : Type :=
| WebDriver_new (path_dir_output path_exec_firefox : string) (headless : bool)
| Post (url : string) (username password : option string)
| Logger_info (p : patient)
| Process_patient (p : patient)
| WebDriver_quit
| Response_new (path_file_output : string) (zip_with_password : bool)
| Send_mail_to_hospital.

(** [LOGIN_URL] of [aws/constants.py], and [os.path.join]. *)
Variable LOGIN_URL : string.
Variable path_join : string -> string -> string.

Definition is_post (e : event) : bool :=
  match e with Post _ _ _ => true | _ => false end.

(** [webdriver.post]: the response is told by its rank among the
    requests of the session. *)
Definition post (url : string) (username password : option string)
  : Py.Run event nat :=
  fun t => (Py.Return (S (List.length (filter is_post t))),
            t ++ [Post url username password]).

(** [s == ""], on a string or on [None] (an unset environment
    variable). *)
Definition is_empty_string (s : option string) : bool :=
  match s with
  | Some v => String.eqb v ""
  | None => false
  end.

Definition login (username password : option string) : Py.Run event nat :=
  if is_empty_string username || is_empty_string password
  then Py.raise Py.ValueError
  else
    post LOGIN_URL username password ;;~
    post LOGIN_URL username password.

(** Reading a local variable of the running function. *)
Definition local {A} (name : string) (v : option A) : Py.Run event A :=
  match v with
  | Some a => Py.ret a
  | None => Py.raise (Py.UnboundLocalError name)
  end.

(** The loop of [process_patients]; [response] is the local variable of
    that name, which the function binds only after the loop. *)
Fixpoint for_patient_in (patients : list patient) (response : option unit)
  : Py.Run event unit :=
  match patients with
  | [] => Py.ret tt
  | p :: patients' =>
      Py.emit (Logger_info p) ;;~
      _ <~ local "response" response ;;
      Py.emit (Process_patient p) ;;~
      for_patient_in patients' response
  end.

Definition process_patients
           (patients : list patient) (username password : option string)
           (path_exec_firefox : string) (webdriver_headless : bool)
           (path_dir_output filename_output : string) (zip_with_password : bool)
  : Py.Run event unit :=
  Py.emit (WebDriver_new path_dir_output path_exec_firefox webdriver_headless) ;;~
  login username password ;;~
  for_patient_in patients None ;;~
  Py.emit WebDriver_quit ;;~
  Py.emit (Response_new (path_join path_dir_output filename_output)
                        zip_with_password) ;;~
  Py.emit Send_mail_to_hospital.

End Portal.

Arguments WebDriver_new {patient} path_dir_output path_exec_firefox headless.
Arguments Post {patient} url username password.
Arguments Logger_info {patient} p.
Arguments Process_patient {patient} p.
Arguments WebDriver_quit {patient}.
Arguments Response_new {patient} path_file_output zip_with_password.
Arguments Send_mail_to_hospital {patient}.
Arguments is_post {patient} e.
Arguments post {patient} url username password.
Arguments login {patient} LOGIN_URL username password.
Arguments local {patient A} name v.
Arguments for_patient_in {patient} patients response.
Arguments process_patients {patient} LOGIN_URL path_join patients username password
  path_exec_firefox webdriver_headless path_dir_output filename_output zip_with_password.


(** The column types the parser knows. *)
Definition known_coltype (it : item) : bool :=
  existsb (String.eqb (coltype it)) ["string"; "array"; "bool"; "date"].

End Aws.

(* ================================================================== *)
(** ** The run as a whole, as definitions to compare with *)
(* ================================================================== *)


(** A record passes both filters. *)
Definition kept (now : Z) (accepted_insurances : list string) (r : Row) : bool :=
  ge_18 (age_in_years now (Data_Di_Nascita r))
  && isin (Descrizione_BusinessPartner r) accepted_insurances.

(** The record with the columns the first four stages add. *)
Definition enrich (now : Z) (xls : SecondPnr) (r : Row) : Row :=
  with_second_pnr (Some (spec_requires_second_pnr xls r))
    (with_PNR (Some (spec_pnr_codes (Note r)))
       (with_age (age_in_years now (Data_Di_Nascita r)) r)).

(** The frame that reaches expiration extraction. *)
Definition before_scadenza (now : Z) (df : DataFrame) (xls : SecondPnr)
           (sheet_codice : list CatRow) (accepted_insurances : list string) : DataFrame :=
  relabel 0
    (flat_map (joined_rows sheet_codice)
       (map (enrich now xls) (filter (kept now accepted_insurances) df))).

(** What a run has logged when it reaches expiration extraction. *)
Definition run_log (now : Z) (df : DataFrame) (xls : SecondPnr)
           (sheet_codice : list CatRow) (accepted_insurances : list string)
  : list entry :=
  let minors :=
    len (filter (fun r => negb (ge_18 (age_in_years now (Data_Di_Nascita r)))) df) in
  let enriched := map (enrich now xls) (filter (kept now accepted_insurances) df) in
  let joined := before_scadenza now df xls sheet_codice accepted_insurances in
  [ (DEBUG, if 0 <? minors then Minors_dropped minors else No_minor);
    (DEBUG, Need_second_pnr (count_true enriched)) ]
  ++ (if len enriched =? len joined then []
      else [(ERROR, Lost_esame (len enriched - len joined))]).


(* ================================================================== *)
(** * Properties *)
(* ================================================================== *)
(** ** The filters *)

Lemma filter_accepted_insurances_eq (df : DataFrame) (accepted : list string) :
  filter_accepted_insurances df accepted
  = (Ok (filter (fun r => isin (Descrizione_BusinessPartner r) accepted) df), []).
Proof.
  unfold filter_accepted_insurances.
  rewrite Z.eqb_refl. reflexivity.
Qed.

(** X1.  [filter_accepted_insurances] returns, in their order, exactly
    the records whose insurance description is one of the accepted
    strings (compared character by character), and never logs. *)
Theorem filter_accepted_insurances_exact (df : DataFrame) (accepted : list string) :
  filter_accepted_insurances df accepted
  = (Ok (filter (fun r => existsb (String.eqb (Descrizione_BusinessPartner r)) accepted)
                df), []).
Proof. apply filter_accepted_insurances_eq. Qed.

(** C3 (the code departs from the claim).  An insurance description
    that differs from the accepted ones only in case is removed by
    [filter_accepted_insurances], and nothing is logged: the warning the
    claim requires is guarded by a comparison of the length of the
    input frame with itself. *)
Theorem filter_accepted_insurances_drops_without_warning :
  let df := [ patient 0 (Some 0) "QUAS" 1 "E1" None;
              patient 1 (Some 0) "quas" 1 "E1" None ] in
  filter_accepted_insurances df [QUAS; QUAS_PENSIONATI]
  = (Ok [ patient 0 (Some 0) "QUAS" 1 "E1" None ], []).
Proof. reflexivity. Qed.

Lemma filter_minor_from_df_result (now : Z) (df : DataFrame) :
  fst (filter_minor_from_df now df)
  = Ok (filter (fun r => ge_18 (age r))
               (map (fun r => with_age (age_in_years now (Data_Di_Nascita r)) r) df)).
Proof.
  unfold filter_minor_from_df.
  destruct (0 <? _); reflexivity.
Qed.

(** A record is kept when at least 18 mean years of 365.2425 days lie
    between its birth date and now. *)
Lemma ge_18_age_in_years (now birth : Z) :
  ge_18 (age_in_years now (Some birth)) = (18 * Calendar.NS_PER_YEAR <=? now - birth).
Proof.
  unfold ge_18, age_in_years, option_map.
  assert (H : 0 < Calendar.NS_PER_YEAR) by reflexivity.
  pose proof (Z.mul_div_le (now - birth) _ H) as Hlo.
  pose proof (Z.mul_succ_div_gt (now - birth) _ H) as Hhi.
  remember ((now - birth) / Calendar.NS_PER_YEAR) as q eqn:Eq. clear Eq.
  remember Calendar.NS_PER_YEAR as Y eqn:EY. clear EY.
  apply Bool.eq_iff_eq_true. rewrite !Z.leb_le. split; intros Hq.
  - assert (Y * 18 <= Y * q) by (apply Z.mul_le_mono_nonneg_l; lia). lia.
  - destruct (Z.le_gt_cases 18 q) as [Hle | Hgt]; [exact Hle | exfalso].
    assert (Y * Z.succ q <= Y * 18) by (apply Z.mul_le_mono_nonneg_l; lia). lia.
Qed.

(** X2.  [filter_minor_from_df] keeps, in their order, exactly the
    records with a birth date at least 18 years of 365.2425 days before
    now, each with its age in such years; a record without a birth date
    is removed. *)
Lemma filter_minor_from_df_rule (now : Z) (df : DataFrame) :
  fst (filter_minor_from_df now df)
  = Ok (map (fun r => with_age (age_in_years now (Data_Di_Nascita r)) r)
          (filter (fun r => match Data_Di_Nascita r with
                            | Some birth => 18 * Calendar.NS_PER_YEAR <=? now - birth
                            | None => false
                            end) df)).
Proof.
  rewrite filter_minor_from_df_result. f_equal.
  induction df as [| r df IH]; [reflexivity |].
  cbn [map filter age with_age]. rewrite IH.
  destruct (Data_Di_Nascita r) as [birth |] eqn:E; [| reflexivity].
  rewrite ge_18_age_in_years.
  destruct (18 * Calendar.NS_PER_YEAR <=? now - birth); [| reflexivity].
  cbn [map]. now rewrite E.
Qed.

(** C2 (the code departs from the claim).  [filter_minor_from_df]
    counts years of 365.2425 days.  On 3 November 2026 at midnight a
    patient born on 3 November 2008 is exactly 18 years old, yet gets
    age 17 and is removed; on 31 January 2026 at noon a patient born on
    1 February 2008 is one day short of 18, yet gets age 18 and is
    kept. *)
Theorem filter_minor_from_df_misjudges_birthdays :
  let born1 := Dateutil.mkdate 2008 11 3 in
  let now1 := Dateutil.mkdate 2026 11 3 in
  let born2 := Dateutil.mkdate 2008 2 1 in
  let now2 := Dateutil.mkdate 2026 1 31 in
  let p1 := patient 0 (Some (civil_timestamp born1 0 0 0)) "QUAS" 1 "E1" None in
  let p2 := patient 0 (Some (civil_timestamp born2 0 0 0)) "QUAS" 1 "E1" None in
  spec_whole_years born1 now1 = 18
  /\ filter_minor_from_df (civil_timestamp now1 0 0 0) [p1]
     = (Ok [], [(DEBUG, Minors_dropped 1)])
  /\ spec_whole_years born2 now2 = 17
  /\ filter_minor_from_df (civil_timestamp now2 12 0 0) [p2]
     = (Ok [with_age (Some 18) p2], [(DEBUG, No_minor)]).
Proof. repeat split; vm_compute; reflexivity. Qed.

(** ** Expiration dates: a token that is no date *)

(** C10.  The notes ["scad 99/99/2024"] hold a token the expiration
    pattern matches and [dateutil] rejects, whatever the day: the
    stage raises [ParserError] instead of leaving a null
    [expiration_date]. *)
Theorem extract_scadenza_raises_on_impossible_date :
  forall today : Dateutil.default,
    let df := [ patient 0 (Some 0) "QUAS" 1 "E1" (Some "scad 99/99/2024") ] in
    first_scadenza (Some "scad 99/99/2024") = Some "99/99/2024"
    /\ Dateutil.parse today "99/99/2024" = None
    /\ extract_scadenza_from_df today df = (Raise ParserError, []).
Proof.
  intros today. repeat split.
Qed.

(** ** The header step *)




(** ** Index labels *)

Lemma mem_label_true (l : Z) (labels : list Z) :
  mem_label l labels = true <-> In l labels.
Proof.
  unfold mem_label. rewrite existsb_exists. split.
  - intros (x & Hx & E). apply Z.eqb_eq in E. now subst.
  - intros H. exists l. split; [assumption | apply Z.eqb_refl].
Qed.

(** With unique labels, a label selects the row it came from. *)
Lemma mem_label_index_filter (P : Row -> bool) (df : DataFrame) (r : Row) :
  NoDup (index df) -> In r df ->
  mem_label (label r) (index (filter P df)) = P r.
Proof.
  unfold index. induction df as [| x df IH]; intros Hnd Hin; [contradiction |].
  simpl in Hnd. inversion Hnd as [| ? ? Hx Hnd']; subst.
  destruct Hin as [-> | Hin].
  - simpl. destruct (P r) eqn:HP.
    + simpl. now rewrite Z.eqb_refl.
    + apply Bool.not_true_is_false. rewrite mem_label_true, in_map_iff.
      intros (y & Ey & Hy). apply filter_In in Hy. destruct Hy as [Hy _].
      apply Hx. rewrite <- Ey. now apply in_map.
  - simpl. destruct (P x) eqn:HP.
    + simpl. destruct (Z.eqb_spec (label r) (label x)) as [E | _].
      * exfalso. apply Hx. rewrite <- E. now apply in_map.
      * now apply IH.
    + now apply IH.
Qed.

Lemma index_map_same (f : Row -> Row) (df : DataFrame) :
  (forall r, label (f r) = label r) -> index (map f df) = index df.
Proof.
  intros H. unfold index. rewrite map_map. apply map_ext. exact H.
Qed.

Lemma NoDup_index_filter (p : Row -> bool) (df : DataFrame) :
  NoDup (index df) -> NoDup (index (filter p df)).
Proof.
  unfold index. induction df as [| r df IH]; intros H; [constructor |].
  cbn [map] in H. inversion H as [| ? ? Hr Hd]; subst. cbn [filter].
  destruct (p r); [| now apply IH].
  cbn [map]. constructor; [| now apply IH].
  intros Hin. apply Hr. apply in_map_iff in Hin. destruct Hin as (x & E & Hx).
  apply filter_In in Hx. rewrite <- E. apply in_map. apply Hx.
Qed.

Lemma index_relabel (start : Z) (df : DataFrame) :
  index (relabel start df)
  = map (fun i => start + Z.of_nat i) (seq 0 (List.length df)).
Proof.
  revert start. induction df as [| r df IH]; intros start; [reflexivity |].
  cbn [relabel index map List.length seq label with_label].
  f_equal; [lia |].
  fold (index (relabel (start + 1) df)). rewrite IH, <- seq_shift, map_map.
  apply map_ext. intros i. lia.
Qed.

(** The frames the run hands to its stages keep unique labels: the
    filters thin the index, the enrichment stages keep it, and the join
    makes a fresh one. *)
Lemma NoDup_index_relabel (start : Z) (df : DataFrame) :
  NoDup (index (relabel start df)).
Proof.
  rewrite index_relabel. apply Injective_map_NoDup; [| apply seq_NoDup].
  intros i j H. lia.
Qed.

(** ** The second-PNR flag *)

(** C5.  On a frame with unique index labels, [add_check_2nd_pnr] sets
    [second_pnr] of every record to true when its institute is 1 and
    its exam code is in the OSR list, or its institute is 8 and its exam
    code is in the SRT list, and to false otherwise; it changes nothing
    else and logs the number of records flagged. *)
Theorem add_check_2nd_pnr_flags (df : DataFrame) (xls : SecondPnr) :
  NoDup (index df) ->
  let out := map (fun r => with_second_pnr (Some (spec_requires_second_pnr xls r)) r) df in
  add_check_2nd_pnr df xls = (Ok out, [(DEBUG, Need_second_pnr (count_true out))])
  /\ (forall r, In r df -> Istituto r <> 1 -> Istituto r <> 8 ->
                spec_requires_second_pnr xls r = false).
Proof.
  intros Hnd out. split.
  - unfold add_check_2nd_pnr.
    set (df1 := map (with_second_pnr (Some false)) df).
    assert (Hnd1 : NoDup (index df1)).
    { unfold df1. rewrite index_map_same; [assumption | reflexivity]. }
    set (osr := index (filter (fun r => isin (Esame r) (OSR xls))
                              (filter (fun r => Istituto r =? 1) df1))).
    set (srt := index (filter (fun r => isin (Esame r) (SRT xls))
                              (filter (fun r => Istituto r =? 8) df1))).
    assert (E : loc_set_second_pnr srt (loc_set_second_pnr osr df1) = out).
    { unfold loc_set_second_pnr, out, df1. rewrite !map_map.
      apply map_ext_in. intros r Hr.
      assert (Hr1 : In (with_second_pnr (Some false) r) df1)
        by (unfold df1; now apply in_map).
      assert (Eosr : mem_label (label r) osr
                     = (Istituto r =? 1) && isin (Esame r) (OSR xls)).
      { unfold osr.
        replace (filter (fun r0 => isin (Esame r0) (OSR xls))
                        (filter (fun r0 => Istituto r0 =? 1) df1))
          with (filter (fun r0 => (Istituto r0 =? 1) && isin (Esame r0) (OSR xls)) df1).
        - now rewrite (mem_label_index_filter _ _ _ Hnd1 Hr1).
        - clear. induction df1 as [| x l IH]; simpl; [reflexivity |].
          destruct (Istituto x =? 1); simpl; [| exact IH].
          destruct (isin (Esame x) (OSR xls)); now rewrite IH. }
      assert (Esrt : mem_label (label r) srt
                     = (Istituto r =? 8) && isin (Esame r) (SRT xls)).
      { unfold srt.
        replace (filter (fun r0 => isin (Esame r0) (SRT xls))
                        (filter (fun r0 => Istituto r0 =? 8) df1))
          with (filter (fun r0 => (Istituto r0 =? 8) && isin (Esame r0) (SRT xls)) df1).
        - now rewrite (mem_label_index_filter _ _ _ Hnd1 Hr1).
        - clear. induction df1 as [| x l IH]; simpl; [reflexivity |].
          destruct (Istituto x =? 8); simpl; [| exact IH].
          destruct (isin (Esame x) (SRT xls)); now rewrite IH. }
      cbn [label with_second_pnr]. rewrite Eosr.
      unfold spec_requires_second_pnr.
      destruct ((Istituto r =? 1) && isin (Esame r) (OSR xls));
        cbn [label with_second_pnr orb]; rewrite Esrt;
        destruct ((Istituto r =? 8) && isin (Esame r) (SRT xls)); reflexivity. }
    fold df1. fold osr. fold srt. rewrite E. reflexivity.
  - intros r _ H1 H8. unfold spec_requires_second_pnr.
    apply Z.eqb_neq in H1, H8. now rewrite H1, H8.
Qed.

Lemma add_check_2nd_pnr_flags_witness :
  let xls := mkSecondPnr ["E1"] ["E2"] in
  let df := [ patient 0 (Some 0) "QUAS" 1 "E1" None;
              patient 1 (Some 0) "QUAS" 2 "E1" None;
              patient 2 (Some 0) "QUAS" 8 "E2" None ] in
  NoDup (index df)
  /\ fst (add_check_2nd_pnr df xls)
     = Ok [ with_second_pnr (Some true) (patient 0 (Some 0) "QUAS" 1 "E1" None);
            with_second_pnr (Some false) (patient 1 (Some 0) "QUAS" 2 "E1" None);
            with_second_pnr (Some true) (patient 2 (Some 0) "QUAS" 8 "E2" None) ].
Proof.
  intros xls df.
  assert (Hnd : NoDup (index df)).
  { repeat constructor; simpl; intuition discriminate. }
  split; [exact Hnd |].
  destruct (add_check_2nd_pnr_flags df xls Hnd) as [E _].
  rewrite E. reflexivity.
Defined.

(** ** Order and removal *)

Lemma sublist_refl {A} (l : list A) : sublist l l.
Proof. induction l; constructor; assumption. Qed.



Lemma sublist_in_order {A} (out inp : list A) : sublist out inp -> in_order out inp.
Proof.
  induction 1 as [| x out inp _ IH | x out inp _ IH].
  - constructor.
  - now constructor.
  - apply in_order_take. now constructor.
Qed.

Lemma in_order_refl {A} (l : list A) : in_order l l.
Proof. apply sublist_in_order, sublist_refl. Qed.



Lemma sheet_columns_relabel (start : Z) (df : DataFrame) :
  map sheet_columns (relabel start df) = map sheet_columns df.
Proof.
  revert start; induction df as [| r df IH]; intros start; simpl; [reflexivity |].
  now rewrite IH.
Qed.

Lemma length_relabel (start : Z) (df : DataFrame) :
  List.length (relabel start df) = List.length df.
Proof.
  revert start; induction df as [| r df IH]; intros start; simpl; [reflexivity |].
  now rewrite IH.
Qed.

Lemma len_map {A B} (f : A -> B) (l : list A) : len (map f l) = len l.
Proof. unfold len. now rewrite length_map. Qed.

(** ** What each enrichment stage returns *)

Lemma add_pnr_to_df_eq (df : DataFrame) :
  add_pnr_to_df df = (Ok (map (fun r => with_PNR (pnr_cell df r) r) df), []).
Proof.
  unfold add_pnr_to_df, assign. rewrite !len_map, Z.eqb_refl.
  cbn [negb when_ bind ret app].
  do 2 f_equal. rewrite map_map. apply map_ext. intros r.
  unfold pnr_cell, assign. cbn [PNR label with_PNR].
  destruct (at_label (label r) _) as [v |] eqn:E; reflexivity.
Qed.

Lemma add_cat_code_eq (df : DataFrame) (sheet_codice : list CatRow) :
  add_cat_code df sheet_codice
  = (Ok (joined_frame df sheet_codice),
     if len df =? len (joined_frame df sheet_codice) then []
     else [(ERROR, Lost_esame (len df - len (joined_frame df sheet_codice)))]).
Proof.
  unfold add_cat_code. fold (joined_frame df sheet_codice).
  destruct (len df =? len (joined_frame df sheet_codice)); reflexivity.
Qed.

Lemma extract_scadenza_from_df_cases (today : Dateutil.default) (df : DataFrame) :
  let firsts :=
    dropna (series_map (@hd_error string)
              (series_map (Re.findall SCADENZA_REGEX false)
                 (dropna (column Note (map (with_scad None) df))))) in
  extract_scadenza_from_df today df
  = match apply_parse today firsts with
    | Raise e => (Raise e, [])
    | Ok parsed =>
        (Ok (map (fun r => with_scad (at_label (label r) parsed) r) df), [])
    end.
Proof.
  intros firsts. unfold extract_scadenza_from_df. fold firsts.
  destruct (apply_parse today firsts) as [parsed | e]; [| reflexivity].
  unfold assign. rewrite !len_map, Z.eqb_refl. cbn [negb when_ bind ret app].
  rewrite map_map. reflexivity.
Qed.




Lemma returns_bind {A B} (c : M A) (f : A -> M B) (P : A -> Prop) (Q : B -> Prop) :
  returns c P -> (forall a, P a -> returns (f a) Q) -> returns (bind c f) Q.
Proof.
  intros (a & l1 & -> & Ha) Hf.
  destruct (Hf a Ha) as (b & l2 & E & Hb).
  exists b, (l1 ++ l2). simpl. rewrite E. now split.
Qed.

Lemma sheet_columns_map (f : Row -> Row) (df : DataFrame) :
  (forall r, sheet_columns (f r) = sheet_columns r) ->
  map sheet_columns (map f df) = map sheet_columns df.
Proof. intros H. rewrite map_map. now apply map_ext. Qed.





(** Unique index labels, which the label-aligned assignments of the
    enrichment stages rely on, are kept from stage to stage. *)
Lemma stages_keep_unique_labels
      (now : Z) (df : DataFrame) (accepted : list string)
      (xls : SecondPnr) (sheet_codice : list CatRow) :
  NoDup (index df) ->
  returns (filter_minor_from_df now df) (fun out => NoDup (index out))
  /\ returns (filter_accepted_insurances df accepted) (fun out => NoDup (index out))
  /\ returns (add_pnr_to_df df) (fun out => NoDup (index out))
  /\ returns (add_check_2nd_pnr df xls) (fun out => NoDup (index out))
  /\ returns (add_cat_code df sheet_codice) (fun out => NoDup (index out)).
Proof.
  intros Hnd. repeat split.
  - pose proof (filter_minor_from_df_result now df) as E.
    destruct (filter_minor_from_df now df) as [res l]. cbn [fst] in E. subst res.
    eexists _, l. split; [reflexivity |].
    apply NoDup_index_filter. now rewrite index_map_same.
  - rewrite filter_accepted_insurances_eq. eexists _, _. split; [reflexivity |].
    now apply NoDup_index_filter.
  - rewrite add_pnr_to_df_eq. eexists _, _. split; [reflexivity |].
    now rewrite index_map_same.
  - unfold add_check_2nd_pnr, loc_set_second_pnr. eexists _, _.
    split; [reflexivity |].
    rewrite !index_map_same; try assumption; try reflexivity;
      intros r; destruct (mem_label _ _); reflexivity.
  - rewrite add_cat_code_eq. eexists _, _. split; [reflexivity |].
    unfold joined_frame, merge_left. rewrite index_map_same by reflexivity.
    apply NoDup_index_relabel.
Qed.


(** ** Category mapping *)

Lemma map_relabel (f : Row -> Row) (start : Z) (df : DataFrame) :
  (forall l r, f (with_label l r) = with_label l (f r)) ->
  map f (relabel start df) = relabel start (map f df).
Proof.
  intros H. revert start; induction df as [| r df IH]; intros start; simpl;
    [reflexivity |].
  now rewrite H, IH.
Qed.

Lemma add_cat_code_joined (df : DataFrame) (sheet_codice : list CatRow) :
  fst (add_cat_code df sheet_codice)
  = Ok (relabel 0 (flat_map (joined_rows sheet_codice) df)).
Proof.
  rewrite add_cat_code_eq. cbn [fst]. f_equal.
  unfold joined_frame, merge_left. rewrite map_relabel by reflexivity. f_equal.
  induction df as [| r df IH]; [reflexivity |].
  cbn [flat_map]. rewrite map_app, IH. f_equal.
  unfold joined_rows, cat_hits.
  destruct (filter _ _) as [| p hits]; [reflexivity |].
  rewrite map_map. apply map_ext. intros [code id]. reflexivity.
Qed.

(** C6, as the claim states it, fails: two rows of the table that
    give one exam code two category ids are no duplicates of each other,
    so a record with that code comes out twice, once per category. *)
Lemma add_cat_code_repeats_a_record :
  let p := patient 0 (Some 0) "QUAS" 1 "E1" None in
  let sheet_codice := [ mkCat "E1" 3 []; mkCat "E1" 2 [] ] in
  add_cat_code [p] sheet_codice
  = (Ok [ with_label 0 (with_category (Some ("E1", 3)) p);
          with_label 1 (with_category (Some ("E1", 2)) p) ],
     [(ERROR, Lost_esame (-1))])
  /\ returns (add_cat_code [p] sheet_codice)
             (fun out => List.length out <> List.length [p]).
Proof.
  split; [reflexivity |].
  eexists _, _. split; [reflexivity | discriminate].
Qed.

(** C6, as the code has it.  Category mapping returns, in the order of
    the input and under a fresh index, each record once for every row of
    the table (deduplicated on whole rows, then cut to exam code and
    category id) that carries its exam code, and once with null columns
    when there is none.  When no record has more than one such row,
    every record comes out exactly once, with [type_prestazioni] the
    label of [DICT_PRESTAZIONNE] for the category id found, null when
    the exam code is not in the table or the id not among the ten keys,
    and nothing is logged. *)
Theorem add_cat_code_left_join (df : DataFrame) (sheet_codice : list CatRow) :
  fst (add_cat_code df sheet_codice)
  = Ok (relabel 0 (flat_map (joined_rows sheet_codice) df))
  /\ ((forall r, In r df -> (List.length (cat_hits sheet_codice r) <= 1)%nat) ->
      add_cat_code df sheet_codice
      = (Ok (relabel 0
               (map (fun r => with_category (hd_error (cat_hits sheet_codice r)) r) df)),
         [])).
Proof.
  split; [apply add_cat_code_joined |].
  intros Huniq.
  pose proof (add_cat_code_joined df sheet_codice) as E.
  rewrite add_cat_code_eq in *. cbn [fst] in E. injection E as E. rewrite E.
  assert (F : flat_map (joined_rows sheet_codice) df
              = map (fun r => with_category (hd_error (cat_hits sheet_codice r)) r) df).
  { clear E. induction df as [| r df IH]; simpl; [reflexivity |].
    rewrite IH by (intros; apply Huniq; now right).
    specialize (Huniq r (or_introl eq_refl)).
    unfold joined_rows. destruct (cat_hits sheet_codice r) as [| h [| h' hits]];
      simpl in *; [reflexivity | reflexivity | lia]. }
  rewrite F. unfold len. rewrite length_relabel, length_map, Z.eqb_refl. reflexivity.
Qed.

Lemma add_cat_code_left_join_witness :
  let p0 := patient 0 (Some 0) "QUAS" 1 "E1" None in
  let p1 := patient 5 (Some 0) "QUAS" 1 "E9" None in
  let sheet_codice := [ mkCat "E1" 3 ["visit"]; mkCat "E1" 3 ["visit"]; mkCat "E2" 8 [] ] in
  (forall r, In r [p0; p1] -> (List.length (cat_hits sheet_codice r) <= 1)%nat)
  /\ add_cat_code [p0; p1] sheet_codice
     = (Ok [ with_label 0
               (with_type_prestazioni (Some "Prestazioni di fisioterapia (MAX 500E/ANNO)")
                  (with_cat (Some "E1") (Some 3) p0));
             with_label 1 (with_type_prestazioni None (with_cat None None p1)) ],
        []).
Proof.
  intros p0 p1 sheet_codice.
  assert (H : forall r, In r [p0; p1] ->
                        (List.length (cat_hits sheet_codice r) <= 1)%nat).
  { intros r [<- | [<- | []]]; vm_compute; lia. }
  split; [exact H |].
  destruct (add_cat_code_left_join [p0; p1] sheet_codice) as [_ E].
  rewrite (E H). reflexivity.
Defined.

(** ** Record counts in the enrichment stages *)



(** ** PNR tokens *)

Lemma is_XB_word (c : ascii) : is_XB c = true -> Re.is_word c = true.
Proof.
  destruct c as [[] [] [] [] [] [] [] []]; vm_compute; intros H; try reflexivity; discriminate.
Qed.

Lemma chars_match_XB (c : ascii) :
  Re.chars_match true [Re.Lit "X"%char; Re.Lit "B"%char] c = is_XB c.
Proof.
  unfold Re.chars_match, is_XB. cbn [existsb Re.item_matches].
  rewrite Bool.orb_false_r. reflexivity.
Qed.

Lemma chars_match_word (ic : bool) (c : ascii) :
  Re.chars_match ic [Re.Word] c = Re.is_word c.
Proof. unfold Re.chars_match. cbn. apply Bool.orb_false_r. Qed.

Lemma at_boundary_word_after (p : option ascii) (c : ascii) (s : list ascii) :
  Re.is_word c = true -> Re.at_boundary p (c :: s) = negb (Re.word_before p).
Proof.
  intros H. unfold Re.at_boundary. cbn [Re.word_after]. rewrite H.
  now destruct (Re.word_before p).
Qed.

Lemma at_boundary_word_before (c : ascii) (s : list ascii) :
  Re.is_word c = true -> Re.at_boundary (Some c) s = negb (Re.word_after s).
Proof.
  intros H. unfold Re.at_boundary. cbn [Re.word_before]. rewrite H.
  now destruct (Re.word_after s).
Qed.

Lemma match_at_PNR (prev : option ascii) (s : list ascii) :
  Re.match_at true PNR_REGEX prev s
  = if spec_pnr_here prev s then Some (skipn 8 s) else None.
Proof.
  unfold Re.match_at, PNR_REGEX, re_XB, re_w.
  destruct s as [| c1 [| c2 [| c3 [| c4 [| c5 [| c6 [| c7 [| c8 rest]]]]]]]];
    cbn [Re.rmatch Re.rep_loop Nat.eqb pred spec_pnr_here skipn];
    rewrite ?chars_match_XB, ?chars_match_word;
    try (split_ifs; reflexivity).
  cbn [forallb].
  destruct (is_XB c1) eqn:H1;
    [| rewrite Bool.andb_false_r; cbn; split_ifs; reflexivity].
  rewrite (at_boundary_word_after prev _ _ (is_XB_word _ H1)).
  destruct (negb (Re.word_before prev)); [| reflexivity].
  cbn [andb].
  destruct (is_XB c2); [| reflexivity].
  destruct (Re.is_word c3); [| reflexivity].
  destruct (Re.is_word c4); [| reflexivity].
  destruct (Re.is_word c5); [| reflexivity].
  destruct (Re.is_word c6); [| reflexivity].
  destruct (Re.is_word c7); [| reflexivity].
  destruct (Re.is_word c8) eqn:H8; [| reflexivity].
  rewrite (at_boundary_word_before _ _ H8).
  cbn [andb]. destruct (negb (Re.word_after rest)); reflexivity.
Qed.

Lemma spec_pnr_here_inside (c : ascii) (s : list ascii) :
  Re.is_word c = true -> spec_pnr_here (Some c) s = false.
Proof.
  intros H. unfold spec_pnr_here.
  destruct s as [| c1 [| c2 [| c3 [| c4 [| c5 [| c6 [| c7 [| c8 rest]]]]]]]];
    try reflexivity.
  cbn [Re.word_before]. rewrite H. reflexivity.
Qed.

Lemma spec_pnr_here_quiet (prev : option ascii) (c : ascii) (s : list ascii) :
  spec_pnr_here prev (c :: s) = true -> quiet (Some c) s 7.
Proof.
  unfold spec_pnr_here.
  destruct s as [| c2 [| c3 [| c4 [| c5 [| c6 [| c7 [| c8 rest]]]]]]];
    try discriminate.
  cbn [forallb]. intros H.
  repeat match goal with
         | E : (_ && _)%bool = true |- _ =>
             apply Bool.andb_true_iff in E; destruct E
         end.
  cbn [quiet].
  repeat split; apply spec_pnr_here_inside;
    try assumption; now apply is_XB_word.
Qed.

Lemma scan_PNR (s : list ascii) :
  forall prev skip, quiet prev s skip ->
    Re.scan true PNR_REGEX prev s skip = spec_pnr_tokens prev s.
Proof.
  induction s as [| c s IH]; intros prev skip Hq.
  - destruct skip; cbn [Re.scan spec_pnr_tokens]; [| reflexivity].
    rewrite match_at_PNR. reflexivity.
  - destruct skip as [| n]; cbn [Re.scan spec_pnr_tokens].
    + rewrite match_at_PNR.
      destruct (spec_pnr_here prev (c :: s)) eqn:E.
      * pose proof (spec_pnr_here_quiet _ _ _ E) as Hq7.
        assert (L : (List.length (c :: s) - List.length (skipn 8 (c :: s)) = 8)%nat).
        { unfold spec_pnr_here in E.
          destruct s as [| c2 [| c3 [| c4 [| c5 [| c6 [| c7 [| c8 rest]]]]]]];
            try discriminate.
          cbn [skipn List.length]. lia. }
        rewrite L. cbn [app Nat.sub]. f_equal. now apply IH.
      * cbn [app]. apply IH. exact I.
    + destruct Hq as [E Hq]. rewrite E. cbn [app]. now apply IH.
Qed.

Lemma findall_PNR (s : string) :
  Re.findall PNR_REGEX true s = spec_pnr_codes (Some s).
Proof.
  unfold Re.findall, spec_pnr_codes. now rewrite scan_PNR.
Qed.

(** ** Series aligned on a frame *)

Lemma series_map_dropna_column {A B} (f : A -> B) (g : Row -> option A) (df : DataFrame) :
  series_map f (dropna (column g df)) = dropna (column (fun r => option_map f (g r)) df).
Proof.
  induction df as [| r df IH]; [reflexivity |].
  cbn [column map dropna] in *. destruct (g r) as [v |]; cbn [option_map dropna].
  - cbn [series_map map fst snd]. f_equal. exact IH.
  - exact IH.
Qed.

Lemma dropna_series_map_dropna_column {A B}
      (f : A -> option B) (g : Row -> option A) (df : DataFrame) :
  dropna (series_map f (dropna (column g df)))
  = dropna (column (fun r => match g r with Some v => f v | None => None end) df).
Proof.
  induction df as [| r df IH]; [reflexivity |].
  cbn [column map dropna] in *. destruct (g r) as [v |]; cbn [dropna].
  - cbn [series_map map fst snd dropna]. destruct (f v); [f_equal |]; exact IH.
  - exact IH.
Qed.

Lemma at_label_absent {A} (l : Z) (g : Row -> option A) (df : DataFrame) :
  ~ In l (index df) -> at_label l (dropna (column g df)) = None.
Proof.
  induction df as [| r df IH]; intros H; [reflexivity |].
  cbn [column map dropna index] in *.
  assert (Hl : l <> label r) by (intros ->; apply H; now left).
  assert (Hr : ~ In l (map label df)) by (intros ?; apply H; now right).
  destruct (g r); cbn [dropna at_label].
  - destruct (Z.eqb_spec l (label r)); [contradiction | now apply IH].
  - now apply IH.
Qed.

(** With unique labels, the aligned value of a row is its own. *)
Lemma at_label_own {A} (g : Row -> option A) (df : DataFrame) (r : Row) :
  NoDup (index df) -> In r df ->
  at_label (label r) (dropna (column g df)) = g r.
Proof.
  induction df as [| x df IH]; intros Hnd Hin; [contradiction |].
  cbn [index map] in Hnd. inversion Hnd as [| ? ? Hx Hnd']; subst.
  cbn [column map dropna].
  destruct Hin as [-> | Hin].
  - destruct (g r) as [v |]; cbn [dropna at_label].
    + now rewrite Z.eqb_refl.
    + now apply at_label_absent.
  - assert (Hl : label r <> label x).
    { intros E. apply Hx. rewrite <- E. now apply in_map. }
    destruct (g x) as [v |]; cbn [dropna at_label].
    + destruct (Z.eqb_spec (label r) (label x)); [contradiction | now apply IH].
    + now apply IH.
Qed.

Lemma at_label_constant {A B} (v : B) (l : Z) (s : Series A) :
  In l (map fst s) -> at_label l (series_map (fun _ => v) s) = Some v.
Proof.
  induction s as [| [l' a] s IH]; intros H; [contradiction |].
  cbn [series_map map fst snd at_label].
  destruct (Z.eqb_spec l l') as [_ | Hne]; [reflexivity |].
  apply IH. destruct H as [E | H]; [simpl in E; congruence | exact H].
Qed.

Lemma map_fst_column {A} (g : Row -> A) (df : DataFrame) :
  map fst (column g df) = index df.
Proof. unfold column, index. rewrite map_map. reflexivity. Qed.

Lemma pnr_cell_spec (df : DataFrame) (r : Row) :
  NoDup (index df) -> In r df ->
  pnr_cell df r = Some (spec_pnr_codes (Note r)).
Proof.
  intros Hnd Hin. unfold pnr_cell.
  rewrite series_map_dropna_column, (at_label_own _ df r Hnd Hin).
  destruct (Note r) as [s |] eqn:En; cbn [option_map].
  - now rewrite findall_PNR.
  - cbn [spec_pnr_codes]. apply at_label_constant.
    rewrite map_fst_column.
    apply in_map_iff. exists (with_PNR None r). split; [reflexivity |].
    apply filter_In. split; [| reflexivity].
    unfold assign. apply in_map_iff. exists r. split; [| exact Hin].
    rewrite (at_label_own _ df r Hnd Hin), En. reflexivity.
Qed.



(** ** The matcher and what patterns denote *)






Lemma last_char_cons p c pre : Re.last_char p (c :: pre) = Re.last_char (Some c) pre.
Proof.
  unfold Re.last_char. cbn [rev].
  destruct (rev pre) as [| x l]; reflexivity.
Qed.

Lemma last_char_app p a b : Re.last_char p (a ++ b) = Re.last_char (Re.last_char p a) b.
Proof.
  revert p; induction a as [| c a IH]; intros p; [reflexivity |].
  cbn [app]. now rewrite !last_char_cons.
Qed.

Lemma Matches_consumes (ic : bool) (r : Re.regex) p s p' s' :
  Re.Matches ic r p s p' s' ->
  exists tok, s = tok ++ s' /\ p' = Re.last_char p tok.
Proof.
  induction 1 as [p s Hb | items p c s Hc | r1 r2 p s p1 s1 p2 s2 _ IH1 _ IH2
                 | r hi p s | r lo hi p s p1 s1 p2 s2 _ IH1 _ IH2].
  - now exists [].
  - now exists [c].
  - destruct IH1 as (t1 & -> & ->), IH2 as (t2 & -> & ->).
    exists (t1 ++ t2). now rewrite app_assoc, last_char_app.
  - now exists [].
  - destruct IH1 as (t1 & -> & ->), IH2 as (t2 & -> & ->).
    exists (t1 ++ t2). now rewrite app_assoc, last_char_app.
Qed.


(** ** The expiration pattern, piece by piece *)
















(** ** The match at a position is the longest token there *)









(** ** Expiration extraction *)


Lemma column_ext {A} (f g : Row -> A) (df : DataFrame) :
  (forall r, f r = g r) -> column f df = column g df.
Proof. intros H. unfold column. apply map_ext. intros r. now rewrite H. Qed.

Lemma apply_parse_column (today : Dateutil.default) (g : Row -> option string)
      (df : DataFrame) :
  apply_parse today (dropna (column g df))
  = if forallb (fun r => match g r with
                         | Some tok => negb (isna (Dateutil.parse today tok))
                         | None => true
                         end) df
    then Ok (dropna (column (fun r => match g r with
                                      | Some tok => Dateutil.parse today tok
                                      | None => None
                                      end) df))
    else Raise ParserError.
Proof.
  induction df as [| r df IH]; [reflexivity |].
  change (column g (r :: df)) with ((label r, g r) :: column g df).
  match goal with
  | |- context [column ?h (r :: df)] =>
      change (column h (r :: df)) with ((label r, h r) :: column h df)
  end.
  cbn [forallb]. cbv beta.
  destruct (g r) as [tok |]; cbn [dropna apply_parse].
  - destruct (Dateutil.parse today tok) as [d |]; cbn [isna negb andb dropna];
      [| reflexivity].
    rewrite IH. destruct (forallb _ df); reflexivity.
  - cbn [andb]. exact IH.
Qed.

Lemma extract_scadenza_from_df_eq (today : Dateutil.default) (df : DataFrame) :
  NoDup (index df) ->
  extract_scadenza_from_df today df
  = if forallb (parses today) df
    then (Ok (map (fun r => with_scad (expiration today r) r) df), [])
    else (Raise ParserError, []).
Proof.
  intros Hnd. rewrite extract_scadenza_from_df_cases.
  replace (column Note (map (with_scad None) df)) with (column Note df)
    by (unfold column; now rewrite map_map).
  rewrite series_map_dropna_column, dropna_series_map_dropna_column.
  rewrite (column_ext _ (fun r => first_scadenza (Note r)))
    by (intros r; unfold first_scadenza; now destruct (Note r)).
  rewrite apply_parse_column. fold (parses today).
  destruct (forallb (parses today) df); [| reflexivity].
  do 2 f_equal. apply map_ext_in. intros r Hin.
  now rewrite (at_label_own _ df r Hnd Hin).
Qed.






(* ================================================================== *)
(** ** What the stages log and keep *)

Lemma length_filter_negb {A} (p : A -> bool) (l : list A) :
  (List.length (filter p l) + List.length (filter (fun x => negb (p x)) l)
   = List.length l)%nat.
Proof.
  induction l as [| x l IH]; cbn [filter]; [reflexivity |].
  destruct (p x); cbn [negb List.length]; lia.
Qed.

Lemma filter_map_with_age (now : Z) (df : DataFrame) :
  filter (fun r => ge_18 (age r))
         (map (fun r => with_age (age_in_years now (Data_Di_Nascita r)) r) df)
  = map (fun r => with_age (age_in_years now (Data_Di_Nascita r)) r)
        (filter (fun r => ge_18 (age_in_years now (Data_Di_Nascita r))) df).
Proof.
  induction df as [| r df IH]; cbn [map filter]; [reflexivity |].
  cbn [with_age age].
  destruct (ge_18 (age_in_years now (Data_Di_Nascita r))); cbn [map]; now rewrite IH.
Qed.

Lemma filter_minor_from_df_eq (now : Z) (df : DataFrame) :
  let removed :=
    filter (fun r => negb (ge_18 (age_in_years now (Data_Di_Nascita r)))) df in
  filter_minor_from_df now df
  = (Ok (map (fun r => with_age (age_in_years now (Data_Di_Nascita r)) r)
           (filter (fun r => ge_18 (age_in_years now (Data_Di_Nascita r))) df)),
     [(DEBUG, if 0 <? len removed then Minors_dropped (len removed) else No_minor)]).
Proof.
  intros removed. unfold filter_minor_from_df. rewrite filter_map_with_age.
  set (adults := filter (fun r => ge_18 (age_in_years now (Data_Di_Nascita r))) df).
  assert (E : len df - len (map (fun r => with_age (age_in_years now (Data_Di_Nascita r)) r)
                               adults) = len removed).
  { rewrite len_map. unfold len, adults, removed.
    pose proof (length_filter_negb
                  (fun r => ge_18 (age_in_years now (Data_Di_Nascita r))) df).
    lia. }
  rewrite E. destruct (0 <? len removed); reflexivity.
Qed.

(** X3.  [filter_minor_from_df] logs one DEBUG entry and nothing else:
    the number of records it removed (those whose age is not at least
    18, a missing birth date included) when there is one, and "no
    minor" otherwise; the records returned and the records removed add
    up to the input. *)
Theorem filter_minor_from_df_logs_removed (now : Z) (df : DataFrame) :
  let removed :=
    filter (fun r => negb (ge_18 (age_in_years now (Data_Di_Nascita r)))) df in
  exists out,
    filter_minor_from_df now df
    = (Ok out,
       [(DEBUG, if 0 <? len removed then Minors_dropped (len removed) else No_minor)])
    /\ len out + len removed = len df.
Proof.
  intros removed. rewrite filter_minor_from_df_eq. fold removed.
  eexists. split; [reflexivity |].
  rewrite len_map. unfold len, removed.
  pose proof (length_filter_negb
                (fun r => ge_18 (age_in_years now (Data_Di_Nascita r))) df).
  lia.
Qed.

Lemma joined_frame_rows (df : DataFrame) (sheet_codice : list CatRow) :
  joined_frame df sheet_codice = relabel 0 (flat_map (joined_rows sheet_codice) df).
Proof.
  pose proof (add_cat_code_joined df sheet_codice) as H.
  rewrite add_cat_code_eq in H. cbn [fst] in H. now inversion H.
Qed.

Lemma length_joined_rows (sheet_codice : list CatRow) (r : Row) :
  List.length (joined_rows sheet_codice r)
  = Nat.max 1 (List.length (cat_hits sheet_codice r)).
Proof.
  unfold joined_rows. destruct (cat_hits sheet_codice r) as [| h hs]; [reflexivity |].
  rewrite length_map. cbn [List.length]. lia.
Qed.

Lemma length_joined (sheet_codice : list CatRow) (df : DataFrame) :
  (List.length df <= List.length (flat_map (joined_rows sheet_codice) df))%nat
  /\ (List.length (flat_map (joined_rows sheet_codice) df) = List.length df
      <-> forall r, In r df -> (List.length (cat_hits sheet_codice r) <= 1)%nat).
Proof.
  induction df as [| r df [IH1 IH2]]; cbn [flat_map].
  - split; [reflexivity |]. split; [intros _ r [] | reflexivity].
  - rewrite length_app, length_joined_rows. cbn [List.length]. split; [lia |].
    split.
    + intros H r' [<- | Hin]; [lia |]. apply IH2; [lia | assumption].
    + intros H.
      assert (H1 : (List.length (cat_hits sheet_codice r) <= 1)%nat)
        by (apply H; now left).
      assert (H2 : List.length (flat_map (joined_rows sheet_codice) df) = List.length df)
        by (apply IH2; intros r' Hin; apply H; now right).
      lia.
Qed.

(** X4.  [add_cat_code] never loses a record: it always returns, with at
    least as many rows as it received, and with exactly as many when no
    record's exam code is carried by more than one row of the
    (deduplicated, projected) table.  It logs nothing in that case and
    otherwise one ERROR entry, whose "dropped" count is negative. *)
Theorem add_cat_code_never_drops (df : DataFrame) (sheet_codice : list CatRow) :
  exists joined l,
    add_cat_code df sheet_codice = (Ok joined, l)
    /\ len df <= len joined
    /\ (l = [] <-> len joined = len df)
    /\ (len joined = len df
        <-> forall r, In r df -> (List.length (cat_hits sheet_codice r) <= 1)%nat)
    /\ (forall lv m, In (lv, m) l ->
                     lv = ERROR /\ exists n, m = Lost_esame n /\ n < 0).
Proof.
  rewrite add_cat_code_eq. eexists. eexists. split; [reflexivity |].
  rewrite joined_frame_rows. unfold len. rewrite length_relabel.
  destruct (length_joined sheet_codice df) as [Hle Hiff].
  split; [lia |]. split; [| split].
  - destruct (Z.eqb_spec (Z.of_nat (List.length df))
                (Z.of_nat (List.length (flat_map (joined_rows sheet_codice) df))))
      as [E | E].
    + split; [lia | reflexivity].
    + split; [discriminate | lia].
  - rewrite <- Hiff. lia.
  - intros lv m.
    destruct (Z.eqb_spec (Z.of_nat (List.length df))
                (Z.of_nat (List.length (flat_map (joined_rows sheet_codice) df))))
      as [E | E]; [intros [] |].
    intros [H | []]. inversion H; subst. split; [reflexivity |].
    eexists. split; [reflexivity | lia].
Qed.









(* ================================================================== *)
(** ** The run as a whole *)

Lemma filter_and {A} (p q : A -> bool) (l : list A) :
  filter q (filter p l) = filter (fun x => p x && q x) l.
Proof.
  induction l as [| x l IH]; cbn [filter]; [reflexivity |].
  destruct (p x); cbn [filter andb]; [| exact IH].
  destruct (q x); now rewrite IH.
Qed.

Lemma add_check_2nd_pnr_eq (df : DataFrame) (xls : SecondPnr) :
  NoDup (index df) ->
  let out := map (fun r => with_second_pnr (Some (spec_requires_second_pnr xls r)) r) df in
  add_check_2nd_pnr df xls = (Ok out, [(DEBUG, Need_second_pnr (count_true out))]).
Proof.
  intros Hnd out. unfold add_check_2nd_pnr.
  set (df1 := map (with_second_pnr (Some false)) df).
  assert (Hnd1 : NoDup (index df1)).
  { unfold df1. rewrite index_map_same; [assumption | reflexivity]. }
  set (osr := index (filter (fun r => isin (Esame r) (OSR xls))
                            (filter (fun r => Istituto r =? 1) df1))).
  set (srt := index (filter (fun r => isin (Esame r) (SRT xls))
                            (filter (fun r => Istituto r =? 8) df1))).
  assert (E : loc_set_second_pnr srt (loc_set_second_pnr osr df1) = out).
  { unfold loc_set_second_pnr, out, df1. rewrite !map_map.
    apply map_ext_in. intros r Hr.
    assert (Hr1 : In (with_second_pnr (Some false) r) df1)
      by (unfold df1; now apply in_map).
    assert (Eosr : mem_label (label r) osr
                   = (Istituto r =? 1) && isin (Esame r) (OSR xls)).
    { unfold osr. rewrite filter_and.
      now rewrite (mem_label_index_filter _ _ _ Hnd1 Hr1). }
    assert (Esrt : mem_label (label r) srt
                   = (Istituto r =? 8) && isin (Esame r) (SRT xls)).
    { unfold srt. rewrite filter_and.
      now rewrite (mem_label_index_filter _ _ _ Hnd1 Hr1). }
    cbn [label with_second_pnr]. rewrite Eosr.
    unfold spec_requires_second_pnr.
    destruct ((Istituto r =? 1) && isin (Esame r) (OSR xls));
      cbn [label with_second_pnr orb]; rewrite Esrt;
      destruct ((Istituto r =? 8) && isin (Esame r) (SRT xls)); reflexivity. }
  fold df1. fold osr. fold srt. rewrite E. reflexivity.
Qed.

Lemma bind_pair {A B} (a : A) (l : list entry) (f : A -> M B) :
  bind (Ok a, l) f = (fst (f a), l ++ snd (f a)).
Proof. unfold bind. now destruct (f a). Qed.

(** The six stages in a row, for a frame with unique index labels. *)
Lemma create_df_from_excel_eq
      (now : Z) (today : Dateutil.default) (df : DataFrame)
      (xls : SecondPnr) (sheet_codice : list CatRow) (accepted : list string) :
  NoDup (index df) ->
  let joined := before_scadenza now df xls sheet_codice accepted in
  create_df_from_excel now today df xls sheet_codice accepted
  = (if forallb (parses today) joined
     then Ok (map (fun r => with_scad (expiration today r) r) joined)
     else Raise ParserError,
     run_log now df xls sheet_codice accepted).
Proof.
  intros Hnd joined. unfold create_df_from_excel.
  rewrite filter_minor_from_df_eq, bind_pair.
  rewrite filter_accepted_insurances_eq, bind_pair.
  set (adults := map (fun r => with_age (age_in_years now (Data_Di_Nascita r)) r)
                   (filter (fun r => ge_18 (age_in_years now (Data_Di_Nascita r))) df)).
  set (df2 := filter (fun r => isin (Descrizione_BusinessPartner r) accepted) adults).
  assert (Hnd2 : NoDup (index df2)).
  { unfold df2, adults. apply NoDup_index_filter.
    rewrite index_map_same by reflexivity. now apply NoDup_index_filter. }
  assert (E2 : df2 = map (fun r => with_age (age_in_years now (Data_Di_Nascita r)) r)
                       (filter (kept now accepted) df)).
  { unfold df2, adults, kept. rewrite <- filter_and.
    generalize (filter (fun r => ge_18 (age_in_years now (Data_Di_Nascita r))) df).
    intros l. induction l as [| r l IH]; cbn [map filter]; [reflexivity |].
    cbn [with_age Descrizione_BusinessPartner].
    destruct (isin (Descrizione_BusinessPartner r) accepted); cbn [map]; now rewrite IH. }
  rewrite add_pnr_to_df_eq, bind_pair.
  set (df3 := map (fun r => with_PNR (pnr_cell df2 r) r) df2).
  assert (E3 : df3 = map (fun r => with_PNR (Some (spec_pnr_codes (Note r))) r) df2).
  { unfold df3. apply map_ext_in. intros r Hr. now rewrite (pnr_cell_spec df2 r Hnd2 Hr). }
  assert (Hnd3 : NoDup (index df3)).
  { rewrite E3, index_map_same by reflexivity. exact Hnd2. }
  rewrite (add_check_2nd_pnr_eq df3 xls Hnd3), bind_pair.
  set (df4 := map (fun r => with_second_pnr (Some (spec_requires_second_pnr xls r)) r) df3).
  assert (E4 : df4 = map (enrich now xls) (filter (kept now accepted) df)).
  { unfold df4. rewrite E3, E2, !map_map. reflexivity. }
  rewrite add_cat_code_eq, bind_pair, joined_frame_rows.
  assert (E5 : relabel 0 (flat_map (joined_rows sheet_codice) df4) = joined).
  { unfold joined, before_scadenza. now rewrite E4. }
  rewrite E5.
  rewrite (extract_scadenza_from_df_eq today joined)
    by (unfold joined, before_scadenza; apply NoDup_index_relabel).
  unfold run_log. fold joined. rewrite <- E4. cbn [fst snd app].
  destruct (forallb (parses today) joined); cbn [bind fst snd ret];
    rewrite ?app_nil_r; reflexivity.
Qed.





Lemma joined_rows_single (sheet_codice : list CatRow) (df : DataFrame) :
  (forall r, In r df -> (List.length (cat_hits sheet_codice r) <= 1)%nat) ->
  flat_map (joined_rows sheet_codice) df
  = map (fun r => with_category (hd_error (cat_hits sheet_codice r)) r) df.
Proof.
  induction df as [| r df IH]; intros H; cbn [flat_map map]; [reflexivity |].
  rewrite IH by (intros r' Hin; apply H; now right).
  assert (H1 : (List.length (cat_hits sheet_codice r) <= 1)%nat) by (apply H; now left).
  unfold joined_rows.
  destruct (cat_hits sheet_codice r) as [| h [| h' hs]]; cbn [List.length] in H1;
    [reflexivity | reflexivity | lia].
Qed.

(** X8.  When no record's exam code is carried by more than one row of
    the category table, a run of [create_df_from_excel] that returns (on
    a frame with unique index labels) writes exactly the records that
    pass both filters - age of at least 18 and an accepted insurance -
    once each and in the order of the sheet, numbered from 0, and has
    logged DEBUG entries only. *)
Theorem create_df_from_excel_one_row_per_kept_record
        (now : Z) (today : Dateutil.default) (df : DataFrame)
        (xls : SecondPnr) (sheet_codice : list CatRow) (accepted : list string)
        (out : DataFrame) (l : list entry) :
  NoDup (index df) ->
  (forall r, In r df -> (List.length (cat_hits sheet_codice r) <= 1)%nat) ->
  create_df_from_excel now today df xls sheet_codice accepted = (Ok out, l) ->
  map sheet_columns out = map sheet_columns (filter (kept now accepted) df)
  /\ index out = map Z.of_nat (seq 0 (List.length out))
  /\ forall lv m, In (lv, m) l -> lv = DEBUG.
Proof.
  intros Hnd Hone Hrun.
  rewrite (create_df_from_excel_eq now today df xls sheet_codice accepted Hnd) in Hrun.
  cbv zeta in Hrun.
  destruct (forallb (parses today)
              (before_scadenza now df xls sheet_codice accepted)); [| discriminate].
  inversion Hrun; subst out l. clear Hrun.
  assert (Hone' : forall r, In r (map (enrich now xls) (filter (kept now accepted) df)) ->
                            (List.length (cat_hits sheet_codice r) <= 1)%nat).
  { intros r Hr. apply in_map_iff in Hr. destruct Hr as [r0 [<- Hr0]].
    apply filter_In in Hr0. apply (Hone r0), Hr0. }
  split; [| split].
  - unfold before_scadenza. rewrite (joined_rows_single _ _ Hone').
    rewrite sheet_columns_map by reflexivity.
    rewrite sheet_columns_relabel.
    rewrite sheet_columns_map
      by (intros r; now destruct (hd_error (cat_hits sheet_codice r)) as [[? ?] |]).
    apply sheet_columns_map. reflexivity.
  - rewrite index_map_same by reflexivity. rewrite length_map.
    unfold before_scadenza. rewrite index_relabel, length_relabel.
    apply map_ext. intros i. lia.
  - unfold run_log. intros lv m Hin. apply in_app_or in Hin.
    destruct Hin as [[H | [H | []]] | Hin]; try (now inversion H).
    unfold before_scadenza, len in Hin. rewrite length_relabel in Hin.
    destruct (length_joined sheet_codice
                (map (enrich now xls) (filter (kept now accepted) df))) as [_ Hiff].
    apply Hiff in Hone'. rewrite Hone', Z.eqb_refl in Hin. destruct Hin.
Qed.

Lemma create_df_from_excel_one_row_per_kept_record_witness :
  let now := Calendar.Timestamp 2026 11 3 9 0 0 in
  let today := Dateutil.mkdate 2026 11 3 in
  let p0 := patient 0 (Some (Calendar.Timestamp 1980 5 17 0 0 0)) "QUAS" 1 "E1"
                    (Some "XX123456 scad 05/06/2027") in
  let p1 := patient 1 (Some (Calendar.Timestamp 2015 1 2 0 0 0)) "QUAS" 1 "E1" None in
  let p2 := patient 2 (Some (Calendar.Timestamp 1970 1 2 0 0 0)) "QUAS-PENSIONATI" 8 "E9"
                    None in
  let xls := mkSecondPnr ["E1"] ["E2"] in
  let sheet_codice := [ mkCat "E1" 3 ["a"]; mkCat "E1" 3 ["a"]; mkCat "E2" 8 [] ] in
  let out :=
    [ with_scad (Some (Dateutil.mkdate 2027 6 5))
        (with_label 0 (with_category (Some ("E1", 3)) (enrich now xls p0)));
      with_scad None (with_label 1 (with_category None (enrich now xls p2))) ] in
  let l := [(DEBUG, Minors_dropped 1); (DEBUG, Need_second_pnr 1)] in
  NoDup (index [p0; p1; p2])
  /\ (forall r, In r [p0; p1; p2] -> (List.length (cat_hits sheet_codice r) <= 1)%nat)
  /\ create_df_from_excel now today [p0; p1; p2] xls sheet_codice [QUAS; QUAS_PENSIONATI]
     = (Ok out, l)
  /\ map sheet_columns out = map sheet_columns [p0; p2]
  /\ index out = [0; 1].
Proof.
  intros now today p0 p1 p2 xls sheet_codice out l.
  assert (Hnd : NoDup (index [p0; p1; p2])).
  { repeat constructor; simpl; intuition discriminate. }
  assert (Hone : forall r, In r [p0; p1; p2] ->
                           (List.length (cat_hits sheet_codice r) <= 1)%nat).
  { intros r [<- | [<- | [<- | []]]]; vm_compute; repeat constructor. }
  assert (Hrun : create_df_from_excel now today [p0; p1; p2] xls sheet_codice
                   [QUAS; QUAS_PENSIONATI] = (Ok out, l)).
  { vm_compute. reflexivity. }
  split; [exact Hnd |]. split; [exact Hone |]. split; [exact Hrun |].
  destruct (create_df_from_excel_one_row_per_kept_record
              now today [p0; p1; p2] xls sheet_codice [QUAS; QUAS_PENSIONATI] out l
              Hnd Hone Hrun) as [Hcols [Hidx _]].
  split; [exact Hcols | exact Hidx].
Defined.










(* ================================================================== *)
(** ** The logger and the entry points *)

(** X11.  [get_logger] never returns a logger: without a file at the
    given path it raises ValueError, and with one it raises NameError,
    since the module never imports [configparser]; it never calls
    [logging.basicConfig].  So the assignment [logger =
    get_logger("../config.ini")], which [vm/test.py] runs when it is
    imported, raises too. *)
Theorem get_logger_never_returns
        (path_exists : string -> bool) (read_config : string -> Py.ini)
        (basicConfig : string -> Py.outcome unit) :
  (forall (config_file_path : string) (trace : list VmLogging.event),
      VmLogging.get_logger path_exists read_config basicConfig config_file_path trace
      = (Py.Raised (if path_exists config_file_path
                    then Py.NameError "configparser"
                    else Py.ValueError),
         trace))
  /\ (forall trace : list VmLogging.event,
         exists e, VmMain.logger path_exists read_config basicConfig trace
                   = (Py.Raised e, trace)).
Proof.
  assert (E : forall config_file_path trace,
             VmLogging.get_logger path_exists read_config basicConfig
               config_file_path trace
             = (Py.Raised (if path_exists config_file_path
                           then Py.NameError "configparser"
                           else Py.ValueError),
                trace)).
  { intros config_file_path trace. unfold VmLogging.get_logger.
    destruct (path_exists config_file_path); reflexivity. }
  split; [exact E |].
  intros trace. unfold VmMain.logger. rewrite E. eexists. reflexivity.
Qed.

Lemma main_eq
      (path_join : string -> string -> string) (expanduser : string -> string)
      (format_date : string -> string -> string)
      (config : Py.ini) (date : string) :
  VmMain.main path_join expanduser format_date config date []
  = match Py.cfg_get config "path" "path_dir_data" with
    | Py.Raised e => (Py.Raised e, [])
    | Py.Return dir =>
        let made := [VmMain.Makedirs (path_join dir date)] in
        match Py.cfg_get config "path" "path_file_input" with
        | Py.Raised e => (Py.Raised e, made)
        | Py.Return _ =>
            match Py.cfg_get config "path" "filename_input" with
            | Py.Raised e => (Py.Raised e, made)
            | Py.Return _ => (Py.Raised Py.TypeError, made)
            end
        end
    end.
Proof.
  unfold VmMain.main, Py.bind, Py.lift, Py.emit.
  destruct (Py.cfg_get config "path" "path_dir_data") as [dir | e]; [| reflexivity].
  cbn [app Py.obind].
  destruct (Py.cfg_get config "path" "path_file_input") as [a | e]; [| reflexivity].
  cbn [Py.obind].
  destruct (Py.cfg_get config "path" "filename_input") as [b | e]; reflexivity.
Qed.

(** X12.  [main] of [vm/test.py] never calls [create_df_from_excel]:
    whatever config.ini holds, it raises first.  With the section
    [path] and its options path_dir_data, path_file_input and
    filename_input present, it creates the data directory of the day
    and then raises TypeError, because [os.path.expanduser] is called
    with two arguments. *)
Theorem main_never_calls_create_df_from_excel
        (path_join : string -> string -> string) (expanduser : string -> string)
        (format_date : string -> string -> string)
        (config : Py.ini) (date : string) :
  (exists e trace,
      VmMain.main path_join expanduser format_date config date [] = (Py.Raised e, trace)
      /\ (forall a b c d f, ~ In (VmMain.Create_df_from_excel a b c d f) trace))
  /\ (forall dir a b,
         Py.cfg_get config "path" "path_dir_data" = Py.Return dir ->
         Py.cfg_get config "path" "path_file_input" = Py.Return a ->
         Py.cfg_get config "path" "filename_input" = Py.Return b ->
         VmMain.main path_join expanduser format_date config date []
         = (Py.Raised Py.TypeError, [VmMain.Makedirs (path_join dir date)])).
Proof.
  rewrite main_eq. split.
  - destruct (Py.cfg_get config "path" "path_dir_data") as [dir | e].
    + cbv zeta.
      destruct (Py.cfg_get config "path" "path_file_input") as [? | e1];
        [destruct (Py.cfg_get config "path" "filename_input") as [? | e2] |];
        eexists; eexists; (split; [reflexivity |]);
        intros ? ? ? ? ? [H | []]; discriminate.
    + exists e, []. split; [reflexivity | intros a b c d f []].
  - intros dir a b -> -> ->. reflexivity.
Qed.

Section Portal_facts.

Context {patient : Type}.
Variable LOGIN_URL : string.
Variable path_join : string -> string -> string.

Lemma login_eq (username password : option string) (t : list (Aws.event patient)) :
  Aws.login LOGIN_URL username password t
  = if Aws.is_empty_string username || Aws.is_empty_string password
    then (Py.Raised Py.ValueError, t)
    else (Py.Return (2 + List.length (filter Aws.is_post t))%nat,
          t ++ [ Aws.Post LOGIN_URL username password;
                 Aws.Post LOGIN_URL username password ]).
Proof.
  unfold Aws.login.
  destruct (Aws.is_empty_string username || Aws.is_empty_string password);
    [reflexivity |].
  unfold Py.bind, Aws.post.
  rewrite filter_app, length_app. cbn [filter Aws.is_post List.length].
  rewrite <- app_assoc. cbn [app]. f_equal. f_equal. lia.
Qed.

(** X13.  [login] raises ValueError, and sends nothing, exactly when the
    username or the password is the empty string; otherwise it posts
    the same credentials to LOGIN_URL twice and returns the response to
    the second request.  A credential that is [None] (an environment
    variable that is not set) is not rejected: it is posted. *)
Theorem login_posts_twice_or_raises
        (username password : option string) (t : list (Aws.event patient)) :
  Aws.login LOGIN_URL username password t
  = (if Aws.is_empty_string username || Aws.is_empty_string password
     then (Py.Raised Py.ValueError, t)
     else (Py.Return (2 + List.length (filter Aws.is_post t))%nat,
           t ++ [ Aws.Post LOGIN_URL username password;
                  Aws.Post LOGIN_URL username password ]))
  /\ (Aws.is_empty_string username || Aws.is_empty_string password = true
      <-> username = Some "" \/ password = Some "").
Proof.
  split; [apply login_eq |].
  rewrite orb_true_iff. unfold Aws.is_empty_string.
  destruct username as [u |], password as [p |]; rewrite ?String.eqb_eq;
    split; intros [H | H]; try discriminate; try (inversion H; subst); auto.
Qed.

Lemma for_patient_in_unbound (p : patient) (patients : list patient)
      (t : list (Aws.event patient)) :
  Aws.for_patient_in (p :: patients) None t
  = (Py.Raised (Py.UnboundLocalError "response"), t ++ [Aws.Logger_info p]).
Proof. reflexivity. Qed.

(** X14.  [process_patients] never calls [process_patient].  With
    credentials [login] accepts and a batch that is not empty, it opens
    the web driver, logs in, logs the first patient and raises
    UnboundLocalError on the local variable [response], which is bound
    only after the loop: the driver is not quit and no mail is sent.
    Only with an empty batch does it quit the driver, build the
    response and send the mail. *)
Theorem process_patients_never_processes_a_patient
        (patients : list patient) (username password : option string)
        (path_exec_firefox : string) (webdriver_headless : bool)
        (path_dir_output filename_output : string) (zip_with_password : bool) :
  let run :=
    Aws.process_patients LOGIN_URL path_join patients username password
      path_exec_firefox webdriver_headless path_dir_output filename_output
      zip_with_password [] in
  let started :=
    [Aws.WebDriver_new path_dir_output path_exec_firefox webdriver_headless] in
  let logged_in :=
    started ++ [ Aws.Post LOGIN_URL username password;
                 Aws.Post LOGIN_URL username password ] in
  run = (if Aws.is_empty_string username || Aws.is_empty_string password
         then (Py.Raised Py.ValueError, started)
         else match patients with
              | [] =>
                  (Py.Return tt,
                   logged_in ++
                     [ Aws.WebDriver_quit;
                       Aws.Response_new (path_join path_dir_output filename_output)
                                        zip_with_password;
                       Aws.Send_mail_to_hospital ])
              | p :: _ =>
                  (Py.Raised (Py.UnboundLocalError "response"),
                   logged_in ++ [Aws.Logger_info p])
              end)
  /\ (forall p, ~ In (Aws.Process_patient p) (snd run)).
Proof.
  intros run started logged_in.
  assert (E : run
              = if Aws.is_empty_string username || Aws.is_empty_string password
                then (Py.Raised Py.ValueError, started)
                else match patients with
                     | [] =>
                         (Py.Return tt,
                          logged_in ++
                            [ Aws.WebDriver_quit;
                              Aws.Response_new (path_join path_dir_output filename_output)
                                               zip_with_password;
                              Aws.Send_mail_to_hospital ])
                     | p :: _ =>
                         (Py.Raised (Py.UnboundLocalError "response"),
                          logged_in ++ [Aws.Logger_info p])
                     end).
  { unfold run, Aws.process_patients.
    unfold Py.bind at 1. unfold Py.emit at 1. cbn [app].
    unfold Py.bind at 1. rewrite login_eq.
    destruct (Aws.is_empty_string username || Aws.is_empty_string password);
      [reflexivity |].
    destruct patients as [| p ps].
    - reflexivity.
    - unfold Py.bind at 1. rewrite for_patient_in_unbound. reflexivity. }
  split; [exact E |].
  intros p. rewrite E.
  destruct (Aws.is_empty_string username || Aws.is_empty_string password).
  - cbn. intros [H | []]; discriminate.
  - destruct patients; cbn; intuition discriminate.
Qed.

End Portal_facts.

(* ================================================================== *)
(** ** [_parse_input_from_hospital] *)




Section Parse_facts.

Context {literal datetime : Type}.
Variable literal_eval : string -> Py.outcome literal.
Variable strptime : string -> string -> Py.outcome datetime.





Lemma parse_row_unknown (row : list (string * string)) (items : list Aws.item) :
  forallb Aws.known_coltype items = false ->
  forall d0, exists e, Aws.parse_row literal_eval strptime row items d0 = Py.Raised e.
Proof.
  induction items as [| it items IH]; cbn [forallb]; [discriminate |].
  intros H d0. cbn [Aws.parse_row].
  unfold Aws.known_coltype in H. cbn [existsb] in H.
  destruct (String.eqb (Aws.coltype it) "string");
    [| destruct (String.eqb (Aws.coltype it) "array");
       [| destruct (String.eqb (Aws.coltype it) "bool");
          [| destruct (String.eqb (Aws.coltype it) "date")]]];
    cbn [orb andb] in H.
  5: now exists Py.ValueError.
  all: destruct (Py.getitem row (Aws.colname it)) as [cell | e]; cbn [Py.obind];
    [| now exists e].
  - apply IH, H.
  - destruct (literal_eval cell) as [l | e]; cbn [Py.obind]; [| now exists e].
    apply IH, H.
  - apply IH, H.
  - destruct (Aws.date_format it) as [fmt |]; cbn [Py.obind]; [| eauto].
    destruct (strptime cell fmt) as [dt | e]; cbn [Py.obind]; [| now exists e].
    apply IH, H.
Qed.

(** X16.  A mapping with an item whose coltype is none of "string",
    "array", "bool" and "date" makes [_parse_input_from_hospital] raise
    as soon as the file has one row; on a file without rows the mapping
    is not looked at, and the empty list is returned. *)
Theorem parse_input_from_hospital_unknown_coltype
        (rows : list (list (string * string))) (mapping_csv : list Aws.item) :
  forallb Aws.known_coltype mapping_csv = false ->
  match rows with
  | [] =>
      Aws._parse_input_from_hospital literal_eval strptime rows mapping_csv
      = Py.Return []
  | _ :: _ =>
      exists e,
        Aws._parse_input_from_hospital literal_eval strptime rows mapping_csv
        = Py.Raised e
  end.
Proof.
  intros H. destruct rows as [| row rows]; [reflexivity |].
  unfold Aws._parse_input_from_hospital. cbn [Aws.parse_rows].
  destruct (parse_row_unknown row mapping_csv H []) as [e ->].
  now exists e.
Qed.




End Parse_facts.


Lemma parse_input_from_hospital_unknown_coltype_witness :
  let literal_eval := fun _ : string => @Py.Raised unit Py.ValueError in
  let strptime := fun _ _ : string => @Py.Raised unit Py.ValueError in
  let mapping_csv := [ Aws.mkItem "name" "Nome" "string" None;
                       Aws.mkItem "age" "Eta" "int" None ] in
  forallb Aws.known_coltype mapping_csv = false
  /\ Aws._parse_input_from_hospital literal_eval strptime [] mapping_csv = Py.Return []
  /\ exists e,
       Aws._parse_input_from_hospital literal_eval strptime
         [ [("Nome", "Ada"); ("Eta", "41")] ] mapping_csv = Py.Raised e.
Proof.
  intros literal_eval strptime mapping_csv.
  assert (H : forallb Aws.known_coltype mapping_csv = false) by (vm_compute; reflexivity).
  split; [exact H |]. split.
  - exact (parse_input_from_hospital_unknown_coltype literal_eval strptime
             [] mapping_csv H).
  - exact (parse_input_from_hospital_unknown_coltype literal_eval strptime
             [ [("Nome", "Ada"); ("Eta", "41")] ] mapping_csv H).
Defined.

